(** * HandRaiseDetection: the motor-weakness assessment component

    A shallow embedding of [src/HandRaiseDetection.js] (the React component
    [MotorWeaknessAssessment]) and the properties of its frame
    classification and hold state machine.

    - [Geometry]: the per-frame classification of the hand and pose
      predictions into [newHandStates] (lines 128-229 of the source);
    - [Component]: the React state of the component, its state setters
      (the tail of [detect], [startChallenge], [resetChallenge], the timer
      callbacks) and the three [useEffect] hooks that own the timers;
    - [Loop]: a discrete-event run of the browser's timer queue, which
      fires the pending [setInterval] / [setTimeout] callbacks in order of
      their due time;
    - [Scenarios]: concrete frames, camera feeds and sessions;
    - [GeometryFacts], [ComponentFacts], [SessionFacts]: the theorems.

    Numbers.  JavaScript numbers that hold pixel coordinates, scores and
    angles are modelled as real numbers ([R]); NaN and signed zeros are
    not modelled.  IEEE rounding is modelled where it moves a decision
    boundary: the reference line is the double product of the video
    height and the double 0.7 ([roundDouble], [shoulderLineY]); sums,
    differences and comparisons of coordinates are exact.  The two
    integer counters ([holdCountdown], [timeLeft]) and the clock
    (milliseconds) are [Z].

    Time.  A callback runs at the due time of its timer; the estimator
    calls awaited by [detect] resolve within the tick; React renders and
    re-runs the effects whose dependencies changed before the next timer
    fires; timers with equal due times fire in order of creation. *)

From Stdlib Require Import Reals Lra ZArith Lia List Bool String Ascii.
Import ListNotations.

(* ------------------------------------------------------------------ *)
(** ** Geometry: one frame's predictions to [newHandStates] *)
(* ------------------------------------------------------------------ *)

Module Geometry.

Local Open Scope R_scope.

(** [a < b] and [a <= b] on JavaScript numbers, as booleans. *)
Definition Rltb (a b : R) : bool := if Rlt_dec a b then true else false.
Definition Rleb (a b : R) : bool := if Rle_dec a b then true else false.

(** [Math.atan2(y, x)] on real numbers: the angle of the point [(x, y)],
    in radians, in the interval (-PI, PI]. *)
Definition Math_atan2 (y x : R) : R :=
  if Rlt_dec 0 x then atan (y / x)
  else if Rlt_dec x 0 then
    if Rle_dec 0 y then atan (y / x) + PI else atan (y / x) - PI
  else if Rlt_dec 0 y then PI / 2
  else if Rlt_dec y 0 then - (PI / 2)
  else 0.

(** The integer nearest to [y], a tie going to the even one. *)
Definition nearestEven (y : R) : Z :=
  let f := Int_part y in
  let r := y - IZR f in
  if Rlt_dec r (1 / 2) then f
  else if Rlt_dec (1 / 2) r then (f + 1)%Z
  else if Z.even f then f else (f + 1)%Z.

(** The binary exponent of [a >= 0] as a double: the least [e' >= e]
    with [a < 2^(e'+1)], searched over [n] steps.  From -1022 the
    subnormal numbers get the exponent -1022. *)
Fixpoint exponentFrom (n : nat) (e : Z) (a : R) : Z :=
  match n with
  | O => e
  | S n' =>
      if Rlt_dec a (powerRZ 2 (e + 1)) then e
      else exponentFrom n' (e + 1)%Z a
  end.

(** The IEEE 754 binary64 number nearest to the real [x] (53-bit
    significand, exponents from -1022 to 1023, ties to even): the result
    of a JavaScript arithmetic operation whose exact value is [x].
    Overflow to Infinity (magnitudes of 2^1024 and more) is not
    modelled. *)
Definition roundDouble (x : R) : R :=
  let a := Rabs x in
  let e := exponentFrom 2045 (-1022) a in
  let ulp := powerRZ 2 (e - 52) in
  let m := IZR (nearestEven (a / ulp)) * ulp in
  if Rlt_dec x 0 then - m else m.

(** A keypoint of either estimator: [{x, y, score}]. *)
Record Keypoint : Type := mkKeypoint { kx : R; ky : R; score : R }.

(** One element of [posePredictions]: [{keypoints: [...]}]; MoveNet puts
    the left shoulder at index 5 and the right shoulder at index 6. *)
Record PosePrediction : Type := mkPose { keypoints : list Keypoint }.

(** One element of [handPredictions]: [{handedness, keypoints}]; the
    source binds [prediction.keypoints] to [landmarks]. *)
Record HandPrediction : Type :=
  mkHand { handedness : string; landmarks : list Keypoint }.

(** What one run of [detect] reads once the video is ready. *)
Record Frame : Type := mkFrame {
  videoHeight : R;
  posePredictions : list PosePrediction;
  handPredictions : list HandPrediction
}.

Inductive Side : Type := left | right.

Definition Side_eqb (a b : Side) : bool :=
  match a, b with
  | left, left | right, right => true
  | _, _ => false
  end.

(** [{ detected, correctAngle, shoulderTouching }] *)
Record SideStatus : Type := mkStatus {
  detected : bool;
  correctAngle : bool;
  shoulderTouching : bool
}.

(** [{ left: ..., right: ... }] *)
Record HandStates : Type := mkHandStates {
  hs_left : SideStatus;
  hs_right : SideStatus
}.

(** [handStates[side]] *)
Definition get (hs : HandStates) (s : Side) : SideStatus :=
  match s with left => hs_left hs | right => hs_right hs end.

(** [handStates[side] = v] *)
Definition set (hs : HandStates) (s : Side) (v : SideStatus) : HandStates :=
  match s with
  | left => mkHandStates v (hs_right hs)
  | right => mkHandStates (hs_left hs) v
  end.

Definition allFalse : SideStatus := mkStatus false false false.

(** Lines 174-177 and the initial value of the [handStates] state. *)
Definition initialHandStates : HandStates := mkHandStates allFalse allFalse.

(** Configuration (lines 31-33).  The literal [0.7] denotes the double
    nearest to 7/10, which is 3152519739159347 / 2^52. *)
Definition detectionLineY : R := 3152519739159347 / 4503599627370496.
Definition angleTolerance : R := 15.

(** [String.prototype.toLowerCase] on the ASCII letters. *)
Definition lower_ascii (c : ascii) : ascii :=
  let n := nat_of_ascii c in
  if (Nat.leb 65 n && Nat.leb n 90)%bool then ascii_of_nat (n + 32) else c.

Fixpoint toLowerCase (s : string) : string :=
  match s with
  | EmptyString => EmptyString
  | String c r => String (lower_ascii c) (toLowerCase r)
  end.

(** Lines 183-186: every label whose lower case is not ["left"] is taken
    as the right hand. *)
Definition isLeft (prediction : HandPrediction) : bool :=
  String.eqb (toLowerCase (handedness prediction)) "left".

Definition sideOf (prediction : HandPrediction) : Side :=
  if isLeft prediction then left else right.

(** Lines 130-168.  [shoulders] starts as [{left: null, right: null}];
    with a pose it holds [keypoints[5]] and [keypoints[6]].  The drawing
    loop at line 139 reads [shoulder.score] of both without a guard, so an
    [undefined] entry raises a TypeError: the result is [None]. *)
Definition getShoulders (poses : list PosePrediction)
  : option (option Keypoint * option Keypoint) :=
  match poses with
  | [] => Some (None, None)
  | p :: _ =>
      match nth_error (keypoints p) 5, nth_error (keypoints p) 6 with
      | Some l, Some r => Some (Some l, Some r)
      | _, _ => None
      end
  end.

(** Line 118: the double product [videoHeight * detectionLineY]. *)
Definition shoulderLineY (f : Frame) : R :=
  roundDouble (videoHeight f * detectionLineY).

(** Lines 206-211. *)
Definition angle (shoulder wrist : Keypoint) : R :=
  let dx := kx wrist - kx shoulder in
  let dy := ky shoulder - ky wrist in
  Math_atan2 dy dx * (180 / PI).

Definition normalizedAngle (shoulder wrist : Keypoint) : R :=
  let a := angle shoulder wrist in
  if Rltb a 0 then a + 360 else a.

(** Line 215. *)
Definition targetAngleForSide (s : Side) : R :=
  match s with left => 135 | right => 45 end.

(** Line 216. *)
Definition angleDiff (s : Side) (shoulder wrist : Keypoint) : R :=
  Rabs (normalizedAngle shoulder wrist - targetAngleForSide s).

(** Line 202. *)
Definition shoulderOnLine (lineY : R) (shoulder : Keypoint) : bool :=
  Rltb (Rabs (ky shoulder - lineY)) 20.

(** The body of [handPredictions.forEach] (lines 180-229) as a step on
    the object [newHandStates]; [None] is a TypeError ([wrist.x] with
    [wrist] undefined). *)
Definition processHand (lineY : R) (shoulders : option Keypoint * option Keypoint)
    (acc : HandStates) (prediction : HandPrediction) : option HandStates :=
  let wrist := nth_error (landmarks prediction) 0 in
  let side := sideOf prediction in
  let shoulder := if isLeft prediction then fst shoulders else snd shoulders in
  let cur := get acc side in
  let acc1 := set acc side (mkStatus true (correctAngle cur) (shoulderTouching cur)) in
  match shoulder with
  | Some sh =>
      if Rltb (3 / 10) (score sh) then
        match wrist with
        | Some w =>
            Some (set acc1 side
                    (mkStatus true
                       (Rleb (angleDiff side sh w) angleTolerance)
                       (shoulderOnLine lineY sh)))
        | None => None
        end
      else Some acc1
  | None => Some acc1
  end.

(** [forEach] with an exception stopping the loop. *)
Fixpoint forEachHand (lineY : R) (shoulders : option Keypoint * option Keypoint)
    (hands : list HandPrediction) (acc : HandStates) : option HandStates :=
  match hands with
  | [] => Some acc
  | h :: rest =>
      match processHand lineY shoulders acc h with
      | Some acc' => forEachHand lineY shoulders rest acc'
      | None => None
      end
  end.

(** Lines 128-229: the value passed to [setHandStates] at line 231, or
    [None] when the run throws before reaching it. *)
Definition newHandStates (f : Frame) : option HandStates :=
  match getShoulders (posePredictions f) with
  | Some shoulders =>
      forEachHand (shoulderLineY f) shoulders (handPredictions f) initialHandStates
  | None => None
  end.

(** The shape the estimators promise: a pose carries at least 7 joints
    and a hand at least its wrist. *)
Definition wf_pose (p : PosePrediction) : Prop := (7 <= List.length (keypoints p))%nat.
Definition wf_hand (h : HandPrediction) : Prop := (1 <= List.length (landmarks h))%nat.
Definition wf_frame (f : Frame) : Prop :=
  Forall wf_pose (posePredictions f) /\ Forall wf_hand (handPredictions f).

(** Lines 132-136 read per side: the shoulder a hand of side [s] is
    compared with. *)
Definition shoulderOf (poses : list PosePrediction) (s : Side) : option Keypoint :=
  match poses with
  | [] => None
  | p :: _ => nth_error (keypoints p) (match s with left => 5 | right => 6 end)
  end.

(** [isLeft ? shoulders.left : shoulders.right] (line 187). *)
Definition pick (shs : option Keypoint * option Keypoint) (s : Side) : option Keypoint :=
  match s with left => fst shs | right => snd shs end.

(** The last prediction of [hands] that [sideOf] puts on side [s]. *)
Definition lastOfSide (s : Side) (hands : list HandPrediction) : option HandPrediction :=
  fold_left (fun found h => if Side_eqb (sideOf h) s then Some h else found) hands None.

(** The flags of side [s] written in terms of one shoulder and one hand:
    the reading of lines 190-218 that the theorems below compare
    [newHandStates] with. *)
Definition statusFor (lineY : R) (s : Side) (shoulder : option Keypoint)
    (hand : option HandPrediction) : SideStatus :=
  match hand with
  | None => allFalse
  | Some h =>
      match shoulder, nth_error (landmarks h) 0 with
      | Some sh, Some w =>
          if Rltb (3 / 10) (score sh)
          then mkStatus true (Rleb (angleDiff s sh w) angleTolerance)
                        (shoulderOnLine lineY sh)
          else mkStatus true false false
      | _, _ => mkStatus true false false
      end
  end.

(** The same frame with other hand predictions. *)
Definition withHands (f : Frame) (hands : list HandPrediction) : Frame :=
  mkFrame (videoHeight f) (posePredictions f) hands.

Definition optionToList {A : Type} (o : option A) : list A :=
  match o with Some a => [a] | None => [] end.

(** Lines 140-151, the overlay: a shoulder is drawn, with its target
    circle, when its score exceeds 0.3; [isLeft] there is
    [index === 0], the left shoulder.  The target is 30% of the video
    height outwards and 30% upwards. *)
Definition drawsTarget (shoulder : Keypoint) : bool := Rltb (3 / 10) (score shoulder).

Definition targetX (videoHeight : R) (isLeft : bool) (shoulder : Keypoint) : R :=
  if isLeft then kx shoulder - videoHeight * (3 / 10)
  else kx shoulder + videoHeight * (3 / 10).

Definition targetY (videoHeight : R) (shoulder : Keypoint) : R :=
  ky shoulder - videoHeight * (3 / 10).

(** Line 218, the value stored in [correctAngle]. *)
Definition angleOk (s : Side) (shoulder wrist : Keypoint) : bool :=
  Rleb (angleDiff s shoulder wrist) angleTolerance.

(** How far the wrist is out from the shoulder, on the side's own side,
    and how far it is above the shoulder (y grows downwards). *)
Definition outward (s : Side) (sh w : Keypoint) : R :=
  match s with
  | right => kx w - kx sh
  | left => - (kx w - kx sh)
  end.

Definition rise (sh w : Keypoint) : R := ky sh - ky w.

(** The wrist reflected in the vertical line through the shoulder. *)
Definition mirrorAbout (shoulder wrist : Keypoint) : Keypoint :=
  mkKeypoint (2 * kx shoulder - kx wrist) (ky wrist) (score wrist).

Definition otherSide (s : Side) : Side :=
  match s with left => right | right => left end.

(** A hand reduced to what lines 181-183 read of it: the label and the
    position of the wrist. *)
Definition wristOnly (h : HandPrediction) : HandPrediction :=
  mkHand (handedness h)
         (match landmarks h with
          | w :: _ => [mkKeypoint (kx w) (ky w) 0]
          | [] => []
          end).

End Geometry.

(* ------------------------------------------------------------------ *)
(** ** Component: React state, setters and effects *)
(* ------------------------------------------------------------------ *)

Module Component.

Import Geometry.
Local Open Scope Z_scope.

(** The [useState] cells of the component (lines 14-28).  [handDetector]
    and [poseDetector] are set together with [isLoading] (lines 63-65)
    and are non-null exactly when [isLoading] is false. *)
Record State : Type := mkState {
  holdCountdown : option Z;       (* null | number *)
  isComplete : bool;
  isLoading : bool;
  handStates : HandStates;
  showStartModal : bool;
  timeLeft : Z;
  challengeStarted : bool;
  showCompletionModal : bool;
  currentSide : Side
}.

(** Line 27: [const [holdDuration] = useState(10)], never set again. *)
Definition holdDuration : Z := 10.

Definition initialState : State :=
  mkState None false true initialHandStates true 60 false false right.

Definition setHoldCountdown (v : option Z) (s : State) : State :=
  mkState v (isComplete s) (isLoading s) (handStates s) (showStartModal s)
          (timeLeft s) (challengeStarted s) (showCompletionModal s) (currentSide s).

Definition setIsComplete (v : bool) (s : State) : State :=
  mkState (holdCountdown s) v (isLoading s) (handStates s) (showStartModal s)
          (timeLeft s) (challengeStarted s) (showCompletionModal s) (currentSide s).

Definition setIsLoading (v : bool) (s : State) : State :=
  mkState (holdCountdown s) (isComplete s) v (handStates s) (showStartModal s)
          (timeLeft s) (challengeStarted s) (showCompletionModal s) (currentSide s).

Definition setHandStates (v : HandStates) (s : State) : State :=
  mkState (holdCountdown s) (isComplete s) (isLoading s) v (showStartModal s)
          (timeLeft s) (challengeStarted s) (showCompletionModal s) (currentSide s).

Definition setShowStartModal (v : bool) (s : State) : State :=
  mkState (holdCountdown s) (isComplete s) (isLoading s) (handStates s) v
          (timeLeft s) (challengeStarted s) (showCompletionModal s) (currentSide s).

Definition setTimeLeft (v : Z) (s : State) : State :=
  mkState (holdCountdown s) (isComplete s) (isLoading s) (handStates s)
          (showStartModal s) v (challengeStarted s) (showCompletionModal s)
          (currentSide s).

Definition setChallengeStarted (v : bool) (s : State) : State :=
  mkState (holdCountdown s) (isComplete s) (isLoading s) (handStates s)
          (showStartModal s) (timeLeft s) v (showCompletionModal s) (currentSide s).

Definition setShowCompletionModal (v : bool) (s : State) : State :=
  mkState (holdCountdown s) (isComplete s) (isLoading s) (handStates s)
          (showStartModal s) (timeLeft s) (challengeStarted s) v (currentSide s).

Definition setCurrentSide (v : Side) (s : State) : State :=
  mkState (holdCountdown s) (isComplete s) (isLoading s) (handStates s)
          (showStartModal s) (timeLeft s) (challengeStarted s)
          (showCompletionModal s) v.

(** Lines 237-239: the condition on [currentSideState]. *)
Definition qualifies (c : SideStatus) : bool :=
  detected c && correctAngle c && shoulderTouching c.

(** Lines 231-255, the state setters at the end of [detect], for the
    value [hs] of [newHandStates].  [holdCountdown] and [currentSide] are
    the values of the render that created the interval; the detection
    effect lists both as dependencies, so they are the current ones. *)
Definition detectSet (hs : HandStates) (s : State) : State :=
  let s1 := setHandStates hs s in
  let currentSideState := get hs (currentSide s) in
  if qualifies currentSideState then
    match holdCountdown s with
    | None => setHoldCountdown (Some holdDuration) s1
    | Some c =>
        if 0 <? c then s1
        else match currentSide s with
             | right => setHoldCountdown None (setCurrentSide left s1)
             | left => setIsComplete true s1
             end
    end
  else setHoldCountdown None s1.

(** Line 243: does this run of [detect] call [setTimeout]? *)
Definition detectArms (hs : HandStates) (s : State) : bool :=
  if qualifies (get hs (currentSide s)) then
    match holdCountdown s with
    | None => false
    | Some c => 0 <? c
    end
  else false.

(** Line 243, the callback [() => setHoldCountdown(prev => prev - 1)].
    In JavaScript [null - 1] is [-1]. *)
Definition decrementHold (s : State) : State :=
  setHoldCountdown
    (Some (match holdCountdown s with None => 0 | Some c => c end - 1)) s.

(** Line 81, the callback [() => setTimeLeft(prev => prev - 1)]. *)
Definition decrementTime (s : State) : State := setTimeLeft (timeLeft s - 1) s.

(** Lines 264-271. *)
Definition startChallenge (s : State) : State :=
  setCurrentSide right
    (setIsComplete false
       (setHoldCountdown None
          (setTimeLeft 60
             (setChallengeStarted true
                (setShowStartModal false s))))).

(** Lines 274-282. *)
Definition resetChallenge (s : State) : State :=
  setCurrentSide right
    (setShowCompletionModal false
       (setTimeLeft 60
          (setShowStartModal true
             (setChallengeStarted false
                (setHoldCountdown None
                   (setIsComplete false s)))))).

(** Lines 88-95, the body of the effect "handle timer completion". *)
Definition timerCompletion (s : State) : State :=
  if (timeLeft s <=? 0) && challengeStarted s then
    let s1 := setChallengeStarted false s in
    if isComplete s then setShowCompletionModal true s1 else s1
  else s.

(** *** Browser timers *)

Inductive TimerKind : Type :=
  | DetectInterval    (* line 259: setInterval(detect, 100) *)
  | SessionInterval   (* line 80: setInterval(..., 1000) *)
  | HoldTimeout.      (* line 243: setTimeout(..., 1000) *)

Definition TimerKind_eqb (a b : TimerKind) : bool :=
  match a, b with
  | DetectInterval, DetectInterval => true
  | SessionInterval, SessionInterval => true
  | HoldTimeout, HoldTimeout => true
  | _, _ => false
  end.

Record Timer : Type := mkTimer { due : Z; kind : TimerKind }.

Definition Timer_eqb (a b : Timer) : bool :=
  (due a =? due b) && TimerKind_eqb (kind a) (kind b).

(** The component together with what lives outside React's state: the
    clock (ms), the pending timers in order of creation, and two
    observers: how often the [onComplete] prop was called and when the
    hold countdown was decremented (newest first). *)
Record Runtime : Type := mkRuntime {
  now : Z;
  st : State;
  timers : list Timer;
  onCompleteCalls : nat;
  decrements : list Z
}.

Definition withSt (s : State) (rt : Runtime) : Runtime :=
  mkRuntime (now rt) s (timers rt) (onCompleteCalls rt) (decrements rt).

Definition withTimers (ts : list Timer) (rt : Runtime) : Runtime :=
  mkRuntime (now rt) (st rt) ts (onCompleteCalls rt) (decrements rt).

(** [setTimeout] / [setInterval]: a new timer, after all existing ones. *)
Definition arm (k : TimerKind) (delay : Z) (rt : Runtime) : Runtime :=
  withTimers (timers rt ++ [mkTimer (now rt + delay) k]) rt.

(** [clearInterval] on the interval of kind [k]. *)
Definition clear (k : TimerKind) (rt : Runtime) : Runtime :=
  withTimers (filter (fun t => negb (TimerKind_eqb (kind t) k)) (timers rt)) rt.

(** How many [HoldTimeout] callbacks are waiting to run. *)
Definition isHold (t : Timer) : bool := TimerKind_eqb (kind t) HoldTimeout.

Definition pendingDecrements (rt : Runtime) : nat :=
  List.length (filter isHold (timers rt)).

(** *** Effects *)

Definition option_Z_eqb (a b : option Z) : bool :=
  match a, b with
  | None, None => true
  | Some x, Some y => x =? y
  | _, _ => false
  end.

(** Line 85: [[challengeStarted, timeLeft]]. *)
Definition timerDepsSame (a b : State) : bool :=
  Bool.eqb (challengeStarted a) (challengeStarted b) && (timeLeft a =? timeLeft b).

(** Line 95: [[timeLeft, challengeStarted, isComplete]]. *)
Definition completionDepsSame (a b : State) : bool :=
  (timeLeft a =? timeLeft b) && Bool.eqb (challengeStarted a) (challengeStarted b)
  && Bool.eqb (isComplete a) (isComplete b).

(** Line 261: [[handDetector, poseDetector, isLoading, holdCountdown,
    challengeStarted, holdDuration, currentSide]]. *)
Definition detectionDepsSame (a b : State) : bool :=
  Bool.eqb (isLoading a) (isLoading b)
  && option_Z_eqb (holdCountdown a) (holdCountdown b)
  && Bool.eqb (challengeStarted a) (challengeStarted b)
  && Side_eqb (currentSide a) (currentSide b).

(** Lines 77-85: cleanup, then the effect body, when a dependency changed. *)
Definition timerEffect (prev : State) (rt : Runtime) : Runtime :=
  let s := st rt in
  if timerDepsSame prev s then rt
  else
    let rt1 := clear SessionInterval rt in
    if negb (challengeStarted s) || (timeLeft s <=? 0) then rt1
    else arm SessionInterval 1000 rt1.

(** Lines 98-261: cleanup, then the effect body, when a dependency changed. *)
Definition detectionEffect (prev : State) (rt : Runtime) : Runtime :=
  let s := st rt in
  if detectionDepsSame prev s then rt
  else
    let rt1 := clear DetectInterval rt in
    if isLoading s || negb (challengeStarted s) then rt1
    else arm DetectInterval 100 rt1.

(** One render of state [st rt] after the render of [prev]: the three
    effects run in the order they are declared; the setters called by the
    completion effect take effect in the next render. *)
Definition renderPass (prev : State) (rt : Runtime) : Runtime :=
  let s := st rt in
  let rt1 := timerEffect prev rt in
  let rt2 := detectionEffect prev rt1 in
  if completionDepsSame prev s then rt2 else withSt (timerCompletion s) rt2.

(** Renders until no effect changes the state: the completion effect
    clears [challengeStarted], so a second render is the last one. *)
Definition commit (prev : State) (rt : Runtime) : Runtime :=
  renderPass (st rt) (renderPass prev rt).

(** *** Actions *)

Fixpoint removeTimer (t : Timer) (ts : list Timer) : list Timer :=
  match ts with
  | [] => []
  | u :: r => if Timer_eqb t u then r else u :: removeTimer t r
  end.

Definition pending (t : Timer) (rt : Runtime) : bool :=
  existsb (Timer_eqb t) (timers rt).

Inductive Action : Type :=
  | ModelsLoaded                  (* lines 63-65 *)
  | ClickStart                    (* line 346, rendered when showStartModal && !isLoading *)
  | ClickRetake                   (* line 399, rendered when showCompletionModal *)
  | ClickContinue                 (* line 415, rendered when showCompletionModal *)
  | Fire (t : Timer) (input : option HandStates).
      (* the callback of pending timer [t]; for a detection tick [input]
         is [newHandStates] of the frame, [None] when the video is not
         ready (line 102) or the run throws *)

(** What the callback of timer [t] does, before React renders. *)
Definition callback (t : Timer) (input : option HandStates) (rt : Runtime) : Runtime :=
  let rt0 := mkRuntime (Z.max (now rt) (due t)) (st rt) (removeTimer t (timers rt))
                       (onCompleteCalls rt) (decrements rt) in
  match kind t with
  | HoldTimeout =>
      mkRuntime (now rt0) (decrementHold (st rt0)) (timers rt0)
                (onCompleteCalls rt0) (now rt0 :: decrements rt0)
  | SessionInterval =>
      withSt (decrementTime (st rt0)) (arm SessionInterval 1000 rt0)
  | DetectInterval =>
      let rt1 := arm DetectInterval 100 rt0 in
      match input with
      | None => rt1
      | Some hs =>
          let rt2 := if detectArms hs (st rt1) then arm HoldTimeout 1000 rt1 else rt1 in
          withSt (detectSet hs (st rt1)) rt2
      end
  end.

(** Event handlers and callbacks; a button that is not rendered cannot be
    clicked and a timer that is not pending does not fire. *)
Definition handle (a : Action) (rt : Runtime) : Runtime :=
  let s := st rt in
  match a with
  | ModelsLoaded => withSt (setIsLoading false s) rt
  | ClickStart =>
      if showStartModal s && negb (isLoading s) then withSt (startChallenge s) rt else rt
  | ClickRetake =>
      if showCompletionModal s then withSt (resetChallenge s) rt else rt
  | ClickContinue =>
      if showCompletionModal s
      then mkRuntime (now rt) s (timers rt) (S (onCompleteCalls rt)) (decrements rt)
      else rt
  | Fire t input => if pending t rt then callback t input rt else rt
  end.

Definition step (a : Action) (rt : Runtime) : Runtime :=
  commit (st rt) (handle a rt).

Definition mount : Runtime := mkRuntime 0 initialState [] 0%nat [].

Inductive reachable : Runtime -> Prop :=
  | reach_mount : reachable mount
  | reach_step (a : Action) (rt : Runtime) :
      reachable rt -> reachable (step a rt)
  | reach_wait (T : Z) (rt : Runtime) :
      reachable rt ->
      reachable (mkRuntime (Z.max (now rt) T) (st rt) (timers rt)
                           (onCompleteCalls rt) (decrements rt)).

(** *** Relations used by the invariants *)

(** The fields the completion effect leaves alone. *)
Record sameHold (a b : State) : Prop := mkSameHold {
  same_holdCountdown : holdCountdown a = holdCountdown b;
  same_currentSide : currentSide a = currentSide b;
  same_isComplete : isComplete a = isComplete b;
  same_timeLeft : timeLeft a = timeLeft b;
  same_handStates : handStates a = handStates b;
  same_showStartModal : showStartModal a = showStartModal b;
  same_isLoading : isLoading a = isLoading b
}.

(** The start modal is never up while the challenge is running. *)
Definition modalGate (s : State) : Prop :=
  showStartModal s = true -> challengeStarted s = false.

(** *** What the component renders *)

(** The texts of [getStatusMessage] (lines 285-300):
    - [ClickStartToBegin]: Click "Start Assessment" to begin
    - [AssessmentComplete]: Assessment complete!
    - [TimesUp]: Time's up! You didn't complete the assessment in time.
    - [ShowArm s]: Show your (Right|Left) arm to the camera
    - [PositionShoulder s]: Position your (Right|Left) shoulder on the line
    - [ExtendArm s]: Extend your (Right|Left) arm at 45 degrees angle
    - [HoldPosition s n]: Hold your (Right|Left) arm position! (n)s *)
Inductive StatusMessage : Type :=
  | ClickStartToBegin
  | AssessmentComplete
  | TimesUp
  | ShowArm (sideName : Side)
  | PositionShoulder (sideName : Side)
  | ExtendArm (sideName : Side)
  | HoldPosition (sideName : Side) (seconds : Z).

(** [holdCountdown || holdDuration]: null and 0 are falsy. *)
Definition countdownOr (c : option Z) (d : Z) : Z :=
  match c with
  | None => d
  | Some v => if v =? 0 then d else v
  end.

(** Lines 285-300. *)
Definition getStatusMessage (s : State) : StatusMessage :=
  if negb (challengeStarted s) then ClickStartToBegin
  else if isComplete s then AssessmentComplete
  else if timeLeft s <=? 0 then TimesUp
  else
    let sideName := currentSide s in
    let currentState := get (handStates s) (currentSide s) in
    if negb (detected currentState) then ShowArm sideName
    else if negb (shoulderTouching currentState) then PositionShoulder sideName
    else if negb (correctAngle currentState) then ExtendArm sideName
    else HoldPosition sideName (holdDuration - countdownOr (holdCountdown s) holdDuration).

(** Line 470, the seconds in "Hold Time: n/10s" (0 when the countdown is
    null). *)
Definition holdTimeShown (s : State) : Z :=
  match holdCountdown s with
  | Some c => holdDuration - c
  | None => 0
  end.

(** Lines 311, 366 and 460: which buttons exist. *)
Definition startButtonRendered (s : State) : bool :=
  showStartModal s && negb (isLoading s).

Definition completionButtonsRendered (s : State) : bool := showCompletionModal s.

(** *** Relations used by the timer invariants *)

Definition countKind (k : TimerKind) (ts : list Timer) : nat :=
  List.length (filter (fun t => TimerKind_eqb (kind t) k) ts).

(** The conditions under which the two interval effects create their
    interval (lines 78 and 99). *)
Definition sessionGuard (s : State) : bool :=
  challengeStarted s && negb (timeLeft s <=? 0).

Definition detectGuard (s : State) : bool :=
  negb (isLoading s) && challengeStarted s.

(** At most one interval of kind [k] is pending, and only while its
    guard holds. *)
Definition intervalInv (k : TimerKind) (guard : State -> bool)
    (s : State) (ts : list Timer) : Prop :=
  (countKind k ts <= 1)%nat /\ (countKind k ts <> 0%nat -> guard s = true).

(** What every reachable state satisfies. *)
Record sound (rt : Runtime) : Prop := mkSound {
  sound_session : intervalInv SessionInterval sessionGuard (st rt) (timers rt);
  sound_detect : intervalInv DetectInterval detectGuard (st rt) (timers rt);
  sound_time : 0 <= timeLeft (st rt) <= 60;
  sound_running : challengeStarted (st rt) = true -> 0 < timeLeft (st rt);
  sound_hold : forall c, holdCountdown (st rt) = Some c -> c <= holdDuration;
  sound_gate : showStartModal (st rt) = true -> challengeStarted (st rt) = false;
  sound_modal : showCompletionModal (st rt) = true ->
                challengeStarted (st rt) = false /\ showStartModal (st rt) = false
}.

(** The challenge has stopped and neither modal is up. *)
Definition deadEnd (s : State) : Prop :=
  challengeStarted s = false /\
  showStartModal s = false /\
  showCompletionModal s = false.

End Component.

(* ------------------------------------------------------------------ *)
(** ** Loop: the timer queue in time order *)
(* ------------------------------------------------------------------ *)

Module Loop.

Import Geometry Component.
Local Open Scope Z_scope.

(** The pending timer that fires next: the least due time, and among
    equal due times the one created first. *)
Fixpoint earliest (ts : list Timer) : option Timer :=
  match ts with
  | [] => None
  | t :: r =>
      match earliest r with
      | None => Some t
      | Some u => if due u <? due t then Some u else Some t
      end
  end.

Definition wait (T : Z) (rt : Runtime) : Runtime :=
  mkRuntime (Z.max (now rt) T) (st rt) (timers rt) (onCompleteCalls rt) (decrements rt).

(** Runs every timer due up to time [T], then lets the clock reach [T].
    [feed t] is what a detection tick at time [t] gets from the
    estimators.  [None] when [fuel] callbacks were not enough. *)
Fixpoint run (fuel : nat) (feed : Z -> option HandStates) (T : Z) (rt : Runtime)
  : option Runtime :=
  match earliest (timers rt) with
  | None => Some (wait T rt)
  | Some t =>
      if due t <=? T then
        match fuel with
        | O => None
        | S n => run n feed T (step (Fire t (feed (due t))) rt)
        end
      else Some (wait T rt)
  end.

(** A user action at time [T], after the timers due by then. *)
Definition at_ (fuel : nat) (feed : Z -> option HandStates) (T : Z) (a : Action)
    (rt : option Runtime) : option Runtime :=
  match rt with
  | None => None
  | Some r =>
      match run fuel feed T r with
      | None => None
      | Some r' => Some (step a r')
      end
  end.

(** What a detection tick at some time gets from the camera: nothing
    when the video is not ready, else the classification of the frame. *)
Definition classify (video : option Frame) : option HandStates :=
  match video with
  | Some f => newHandStates f
  | None => None
  end.

Definition ok : SideStatus := mkStatus true true true.
Definition bothOk : HandStates := mkHandStates ok ok.

Definition started : option Runtime :=
  at_ 10 (fun _ => None) 0 ClickStart (Some (step ModelsLoaded mount)).

End Loop.


(* ------------------------------------------------------------------ *)
(** ** Scenarios: concrete frames, feeds and sessions *)
(* ------------------------------------------------------------------ *)

Module Scenarios.

Import Geometry Component Loop.

(** A 100-pixel-high frame: the reference line is at y = 70.  Both
    shoulders lie on it with score 0.9; the right wrist is up and out at
    45 degrees, the left wrist at 135 degrees. *)
Definition filler : Keypoint := mkKeypoint 50 20 (9 / 10).
Definition leftShoulder : Keypoint := mkKeypoint 60 70 (9 / 10).
Definition rightShoulder : Keypoint := mkKeypoint 40 70 (9 / 10).
Definition leftWrist : Keypoint := mkKeypoint 50 60 (9 / 10).
Definition rightWrist : Keypoint := mkKeypoint 50 60 (9 / 10).
Definition lowWrist : Keypoint := mkKeypoint 50 80 (9 / 10).

Definition examplePose : PosePrediction :=
  mkPose (repeat filler 5 ++ [leftShoulder; rightShoulder] ++ repeat filler 10).

Definition leftHand : HandPrediction := mkHand "Left" (repeat leftWrist 21).
Definition rightHand : HandPrediction := mkHand "Right" (repeat rightWrist 21).
Definition droppedRightHand : HandPrediction := mkHand "Right" (repeat lowWrist 21).

Definition exampleFrame : Frame := mkFrame 100 [examplePose] [leftHand; rightHand].

(** Two detections labelled right: the dropped one first. *)
Definition twoRightHands : Frame :=
  mkFrame 100 [examplePose] [droppedRightHand; leftHand; rightHand].

(** A pose with too few joints, which no estimator of line 56 returns. *)
Definition shortPoseFrame : Frame :=
  mkFrame 100 [mkPose (repeat filler 3)] [rightHand].

(** The right wrist on the centre of the target circle drawn for the
    right shoulder: 30 pixels out and 30 pixels up. *)
Definition targetWrist : Keypoint := mkKeypoint 70 40 (9 / 10).
Definition targetFrame : Frame :=
  mkFrame 100 [examplePose] [mkHand "Right" [targetWrist]].

(** The right wrist twice as far along the same direction as in
    [exampleFrame], seen from a shoulder shifted by (5, 5). *)
Definition shiftedShoulder : Keypoint := mkKeypoint 45 75 (9 / 10).
Definition farWrist : Keypoint := mkKeypoint 65 55 (9 / 10).

(** Hands but no pose. *)
Definition noPoseFrame : Frame := mkFrame 100 [] [leftHand; rightHand].

(** The pose alone: no hand is in view. *)
Definition emptyFrame : Frame := mkFrame 100 [examplePose] [].

Local Open Scope Z_scope.

(** Both arms qualify in every frame. *)
Definition allOkCamera : Z -> option Frame := fun _ => Some exampleFrame.
Definition allOkFeed : Z -> option HandStates := fun _ => Some bothOk.

(** Both arms qualify, except between 5 s and 59 s, when no hand is seen. *)
Definition lapseCamera : Z -> option Frame :=
  fun t => if (t <? 5000) || (59000 <=? t)
           then Some exampleFrame else Some emptyFrame.
Definition lapseFeed : Z -> option HandStates :=
  fun t => if (t <? 5000) || (59000 <=? t)
           then Some bothOk else Some initialHandStates.

(** The session of [allOkFeed] up to time [T] (ms), started at time 0. *)
Definition heldSession (T : Z) : option Runtime :=
  match started with
  | Some r => run 5000 allOkFeed T r
  | None => None
  end.

(** The session of [lapseFeed] up to time [T] (ms): it completes by
    4.4 s, the arm is down from 5 s and raised again at 59 s, and the
    timer ends at 60 s and shows the completion modal. *)
Definition lapsedSession (T : Z) : option Runtime :=
  match started with
  | Some r => run 5000 lapseFeed T r
  | None => None
  end.

(** The user presses Retake at 60.45 s ... *)
Definition retaken : option Runtime :=
  at_ 5000 lapseFeed 60450 ClickRetake started.

(** ... and the clock runs on to 61 s. *)
Definition retakenSession : option Runtime :=
  match retaken with
  | Some r => run 100 lapseFeed 61000 r
  | None => None
  end.

(** One hold episode on the state: the tick that starts the countdown,
    [holdDuration] decrements, and the tick that sees 0. *)
Definition fullHold (hs : HandStates) (s : State) : State :=
  detectSet hs (Nat.iter (Z.to_nat holdDuration) decrementHold (detectSet hs s)).

(** A session that is running, ready for its first tick. *)
Definition freshSession : State := startChallenge (setIsLoading false initialState).

(** What the theorems read off a run. *)
Definition observe {A : Type} (f : Runtime -> A) (rt : option Runtime) : option A :=
  option_map f rt.

(** A 720-pixel-high frame whose right shoulder is at y = 484, 20 pixels
    above 504, with the right wrist up and out at 45 degrees. *)
Definition hdLeftShoulder : Keypoint := mkKeypoint 400 484 (9 / 10).
Definition hdRightShoulder : Keypoint := mkKeypoint 300 484 (9 / 10).
Definition hdWrist : Keypoint := mkKeypoint 350 434 (9 / 10).
Definition hdFrame : Frame :=
  mkFrame 720
          [mkPose (repeat filler 5 ++ [hdLeftShoulder; hdRightShoulder] ++ repeat filler 10)]
          [mkHand "Right" [hdWrist]].

(** Both arms qualify, except in the one frame at 0.5 s. *)
Definition blipCamera : Z -> option Frame :=
  fun t => if t =? 500 then Some emptyFrame else Some exampleFrame.
Definition blipFeed : Z -> option HandStates :=
  fun t => if t =? 500 then Some initialHandStates else Some bothOk.

(** Both arms qualify, except from 0.5 s to 1.45 s, when no hand is seen. *)
Definition dipCamera : Z -> option Frame :=
  fun t => if (500 <=? t) && (t <? 1450) then Some emptyFrame else Some exampleFrame.
Definition dipFeed : Z -> option HandStates :=
  fun t => if (500 <=? t) && (t <? 1450) then Some initialHandStates else Some bothOk.

(** The sessions of [blipFeed] and [dipFeed] up to time [T] (ms). *)
Definition blippedSession (T : Z) : option Runtime :=
  match started with
  | Some r => run 5000 blipFeed T r
  | None => None
  end.

Definition dippedSession (T : Z) : option Runtime :=
  match started with
  | Some r => run 5000 dipFeed T r
  | None => None
  end.

(** No hand is ever in view. *)
Definition idleFeed : Z -> option HandStates := fun _ => Some initialHandStates.

(** The session of [idleFeed] up to time [T] (ms). *)
Definition idleSession (T : Z) : option Runtime :=
  match started with
  | Some r => run 5000 idleFeed T r
  | None => None
  end.

(** The outcome of a run, or the freshly mounted component. *)
Definition orMount (rt : option Runtime) : Runtime :=
  match rt with Some r => r | None => mount end.

End Scenarios.

(* ------------------------------------------------------------------ *)
(** ** Facts about the frame classification *)
(* ------------------------------------------------------------------ *)

Module GeometryFacts.

Import Geometry Scenarios.
Local Open Scope R_scope.

Lemma Rltb_true (a b : R) : Rltb a b = true <-> a < b.
Proof. unfold Rltb. destruct (Rlt_dec a b); split; intros; try easy. Qed.

Lemma Rleb_true (a b : R) : Rleb a b = true <-> a <= b.
Proof. unfold Rleb. destruct (Rle_dec a b); split; intros; try easy. Qed.

Lemma Rltb_false (a b : R) : Rltb a b = false <-> b <= a.
Proof.
  unfold Rltb. destruct (Rlt_dec a b); split; intros; try easy; lra.
Qed.

Lemma Rleb_false (a b : R) : Rleb a b = false <-> b < a.
Proof.
  unfold Rleb. destruct (Rle_dec a b); split; intros; try easy; lra.
Qed.

Lemma atan_nonpos (x : R) : x <= 0 -> atan x <= 0.
Proof.
  intros [Hlt | Heq].
  - left. rewrite <- atan_0. now apply atan_increasing.
  - subst. rewrite atan_0. lra.
Qed.

Lemma atan_pos (x : R) : 0 < x -> 0 < atan x.
Proof. intros H. rewrite <- atan_0. now apply atan_increasing. Qed.

Lemma div_neg_nonpos (y x : R) : x < 0 -> 0 <= y -> y / x <= 0.
Proof.
  intros Hx Hy. unfold Rdiv.
  assert (/ x < 0) by now apply Rinv_lt_0_compat.
  nra.
Qed.

Lemma div_neg_pos (y x : R) : x < 0 -> y < 0 -> 0 < y / x.
Proof.
  intros Hx Hy. unfold Rdiv.
  assert (/ x < 0) by now apply Rinv_lt_0_compat.
  nra.
Qed.

(** [Math.atan2] lands in (-PI, PI]. *)
Lemma Math_atan2_range (y x : R) : - PI < Math_atan2 y x <= PI.
Proof.
  pose proof PI_RGT_0 as Hpi.
  unfold Math_atan2.
  destruct (Rlt_dec 0 x) as [Hx | Hx].
  - pose proof (atan_bound (y / x)). lra.
  - destruct (Rlt_dec x 0) as [Hx' | Hx'].
    + pose proof (atan_bound (y / x)) as Hb.
      destruct (Rle_dec 0 y) as [Hy | Hy].
      * pose proof (atan_nonpos _ (div_neg_nonpos y x Hx' Hy)). lra.
      * assert (Hy' : y < 0) by lra.
        pose proof (atan_pos _ (div_neg_pos y x Hx' Hy')). lra.
    + destruct (Rlt_dec 0 y); [lra |].
      destruct (Rlt_dec y 0); lra.
Qed.

Lemma deg_scale (r : R) : - PI < r <= PI -> -180 < r * (180 / PI) <= 180.
Proof.
  intros [Hlo Hhi].
  pose proof PI_RGT_0 as Hpi.
  assert (Hk : 0 < 180 / PI) by (apply Rdiv_lt_0_compat; lra).
  assert (E : PI * (180 / PI) = 180) by (field; lra).
  split.
  - apply (Rmult_lt_compat_r _ _ _ Hk) in Hlo. lra.
  - apply (Rmult_le_compat_r (180 / PI)) in Hhi; lra.
Qed.

(** The angle in degrees lies in (-180, 180]. *)
Lemma angle_range (sh w : Keypoint) : -180 < angle sh w <= 180.
Proof. unfold angle. cbv zeta. apply deg_scale, Math_atan2_range. Qed.

Lemma normalizedAngle_neg (sh w : Keypoint) :
  angle sh w < 0 -> normalizedAngle sh w = angle sh w + 360.
Proof.
  intros H. unfold normalizedAngle. cbv zeta.
  apply Rltb_true in H. now rewrite H.
Qed.

Lemma normalizedAngle_nonneg (sh w : Keypoint) :
  0 <= angle sh w -> normalizedAngle sh w = angle sh w.
Proof.
  intros H. unfold normalizedAngle. cbv zeta.
  apply Rltb_false in H. now rewrite H.
Qed.

Lemma normalizedAngle_range (sh w : Keypoint) : 0 <= normalizedAngle sh w < 360.
Proof.
  pose proof (angle_range sh w) as Ha.
  destruct (Rlt_dec (angle sh w) 0) as [H | H].
  - rewrite (normalizedAngle_neg _ _ H). lra.
  - rewrite normalizedAngle_nonneg; lra.
Qed.

(** *** The loop over the hands *)

Lemma forEachHand_app lineY shs l1 l2 acc :
  forEachHand lineY shs (l1 ++ l2) acc =
  match forEachHand lineY shs l1 acc with
  | Some acc' => forEachHand lineY shs l2 acc'
  | None => None
  end.
Proof.
  revert acc. induction l1 as [| h l1 IH]; intros acc; simpl; [reflexivity |].
  destruct (processHand lineY shs acc h); [apply IH | reflexivity].
Qed.

Lemma lastOfSide_snoc s l h :
  lastOfSide s (l ++ [h]) =
  if Side_eqb (sideOf h) s then Some h else lastOfSide s l.
Proof. unfold lastOfSide. now rewrite fold_left_app. Qed.

Lemma Side_eqb_eq a b : Side_eqb a b = true <-> a = b.
Proof. destruct a, b; simpl; split; intros; congruence. Qed.

Lemma lastOfSide_side s l h : lastOfSide s l = Some h -> sideOf h = s.
Proof.
  induction l as [| x l IH] using rev_ind; [discriminate |].
  rewrite lastOfSide_snoc.
  destruct (Side_eqb (sideOf x) s) eqn:E.
  - intros [= <-]. now apply Side_eqb_eq.
  - exact IH.
Qed.

Lemma lastOfSide_In s l h : lastOfSide s l = Some h -> In h l.
Proof.
  induction l as [| x l IH] using rev_ind; [discriminate |].
  rewrite lastOfSide_snoc, in_app_iff.
  destruct (Side_eqb (sideOf x) s).
  - intros [= <-]. right. now left.
  - intros H. left. now apply IH.
Qed.

Lemma lastOfSide_None s l :
  lastOfSide s l = None <-> (forall h, In h l -> sideOf h <> s).
Proof.
  induction l as [| x l IH] using rev_ind.
  - split; [intros _ h [] | reflexivity].
  - rewrite lastOfSide_snoc.
    destruct (Side_eqb (sideOf x) s) eqn:E.
    + split; [discriminate |].
      intros H. exfalso. apply (H x).
      * apply in_app_iff. right. now left.
      * now apply Side_eqb_eq.
    + rewrite IH. split.
      * intros H h Hin. apply in_app_iff in Hin as [Hin | [<- | []]].
        -- now apply H.
        -- intros Heq. apply Side_eqb_eq in Heq. congruence.
      * intros H h Hin. apply H, in_app_iff. now left.
Qed.

Lemma statusFor_some lineY s shoulder h w :
  nth_error (landmarks h) 0 = Some w ->
  statusFor lineY s shoulder (Some h) =
  match shoulder with
  | Some sh =>
      if Rltb (3 / 10) (score sh)
      then mkStatus true (Rleb (angleDiff s sh w) angleTolerance)
                    (shoulderOnLine lineY sh)
      else mkStatus true false false
  | None => mkStatus true false false
  end.
Proof. intros Ew. unfold statusFor. rewrite Ew. now destruct shoulder. Qed.

Lemma statusFor_no_shoulder lineY s hand :
  correctAngle (statusFor lineY s None hand) = false /\
  shoulderTouching (statusFor lineY s None hand) = false.
Proof. destruct hand; simpl; auto. Qed.

Lemma statusFor_low_score lineY s sh hand :
  Rltb (3 / 10) (score sh) = false ->
  correctAngle (statusFor lineY s (Some sh) hand) = false /\
  shoulderTouching (statusFor lineY s (Some sh) hand) = false.
Proof.
  intros Es. unfold statusFor. destruct hand as [h |]; [| now split].
  destruct (nth_error (landmarks h) 0); rewrite ?Es; now split.
Qed.

(** With well-formed hands the loop does not throw, and each side ends
    with the flags of its last hand. *)
Lemma forEachHand_last lineY shs hands :
  Forall wf_hand hands ->
  forEachHand lineY shs hands initialHandStates =
  Some (mkHandStates
          (statusFor lineY left (pick shs left) (lastOfSide left hands))
          (statusFor lineY right (pick shs right) (lastOfSide right hands))).
Proof.
  induction hands as [| h l IH] using rev_ind; intros Hwf; [reflexivity |].
  apply Forall_app in Hwf as [Hl Hh].
  apply Forall_inv in Hh.
  rewrite forEachHand_app, (IH Hl). simpl forEachHand.
  rewrite !lastOfSide_snoc.
  assert (Ew : exists w, nth_error (landmarks h) 0 = Some w).
  { unfold wf_hand in Hh. destruct (landmarks h) as [| w ws]; [simpl in Hh; lia |].
    now exists w. }
  destruct Ew as [w Ew].
  unfold processHand, sideOf. rewrite Ew. cbv zeta.
  destruct (isLeft h); cbn [Side_eqb get set hs_left hs_right pick];
    rewrite (statusFor_some _ _ _ _ _ Ew).
  - destruct (fst shs) as [sh |]; [destruct (Rltb (3 / 10) (score sh)) eqn:Es |].
    + reflexivity.
    + destruct (statusFor_low_score lineY left sh (lastOfSide left l) Es) as [-> ->].
      reflexivity.
    + destruct (statusFor_no_shoulder lineY left (lastOfSide left l)) as [-> ->].
      reflexivity.
  - destruct (snd shs) as [sh |]; [destruct (Rltb (3 / 10) (score sh)) eqn:Es |].
    + reflexivity.
    + destruct (statusFor_low_score lineY right sh (lastOfSide right l) Es) as [-> ->].
      reflexivity.
    + destruct (statusFor_no_shoulder lineY right (lastOfSide right l)) as [-> ->].
      reflexivity.
Qed.

Lemma getShoulders_wf poses :
  Forall wf_pose poses ->
  getShoulders poses = Some (shoulderOf poses left, shoulderOf poses right).
Proof.
  intros H. destruct poses as [| p ps]; [reflexivity |].
  apply Forall_inv in H. unfold wf_pose in H.
  unfold getShoulders, shoulderOf.
  destruct (nth_error (keypoints p) 5) eqn:E5.
  - destruct (nth_error (keypoints p) 6) eqn:E6; [reflexivity |].
    apply nth_error_None in E6. lia.
  - apply nth_error_None in E5. lia.
Qed.

(** The classification of a well-formed frame, side by side. *)
Lemma newHandStates_wf (f : Frame) :
  wf_frame f ->
  newHandStates f =
  Some (mkHandStates
          (statusFor (shoulderLineY f) left (shoulderOf (posePredictions f) left)
                     (lastOfSide left (handPredictions f)))
          (statusFor (shoulderLineY f) right (shoulderOf (posePredictions f) right)
                     (lastOfSide right (handPredictions f)))).
Proof.
  intros [Hp Hh]. unfold newHandStates.
  rewrite (getShoulders_wf _ Hp).
  now rewrite (forEachHand_last _ _ _ Hh).
Qed.

Lemma newHandStates_side (f : Frame) (s : Side) :
  wf_frame f ->
  exists hs, newHandStates f = Some hs /\
    get hs s = statusFor (shoulderLineY f) s (shoulderOf (posePredictions f) s)
                         (lastOfSide s (handPredictions f)).
Proof.
  intros H. rewrite (newHandStates_wf f H).
  eexists. split; [reflexivity |]. now destruct s.
Qed.

(** *** Rounding to a double *)

Lemma powerRZ2_pos (e : Z) : 0 < powerRZ 2 e.
Proof. apply powerRZ_lt. lra. Qed.

Lemma powerRZ2_le (a b : Z) : (a <= b)%Z -> powerRZ 2 a <= powerRZ 2 b.
Proof.
  intros H. replace b with (a + (b - a))%Z by lia.
  rewrite powerRZ_add by lra.
  pose proof (powerRZ2_pos a) as Ha.
  assert (H1 : 1 <= powerRZ 2 (b - a)).
  { destruct (b - a)%Z as [| p | p] eqn:E; simpl; [lra | | lia].
    apply pow_R1_Rle. lra. }
  nra.
Qed.

Lemma exponentFrom_spec (n : nat) (e0 e : Z) (a : R) :
  (e0 <= e <= e0 + Z.of_nat n)%Z ->
  powerRZ 2 e <= a < powerRZ 2 (e + 1) ->
  exponentFrom n e0 a = e.
Proof.
  revert e0. induction n as [| n IH]; intros e0 He [Hlo Hhi]; simpl.
  - lia.
  - destruct (Rlt_dec a (powerRZ 2 (e0 + 1))) as [Hlt | Hge].
    + destruct (Z.eq_dec e0 e) as [E | N]; [exact E | exfalso].
      pose proof (powerRZ2_le (e0 + 1) e ltac:(lia)). lra.
    + apply IH; [| now split].
      destruct (Z.eq_dec e0 e) as [E | N]; [subst; lra | lia].
Qed.

Lemma nearestEven_near (y : R) (m : Z) :
  Rabs (y - IZR m) < 1 / 2 -> nearestEven y = m.
Proof.
  intros H. apply Rabs_def2 in H as [H1 H2].
  unfold nearestEven. cbv zeta.
  pose proof (base_Int_part y) as [F1 F2].
  set (f := Int_part y) in *.
  assert (Hf : (f = m \/ f = m - 1)%Z).
  { assert (f < m + 1)%Z by (apply lt_IZR; rewrite plus_IZR; simpl; lra).
    assert (m - 2 < f)%Z by (apply lt_IZR; rewrite minus_IZR; simpl; lra).
    lia. }
  destruct Hf as [-> | ->].
  - destruct (Rlt_dec (y - IZR m) (1 / 2)); [reflexivity | lra].
  - rewrite minus_IZR in *. simpl in *.
    destruct (Rlt_dec (y - (IZR m - 1)) (1 / 2)); [lra |].
    destruct (Rlt_dec (1 / 2) (y - (IZR m - 1))); [lia | lra].
Qed.

(** How to evaluate [roundDouble]: give the binade and the integer
    significand. *)
Lemma roundDouble_eval (x : R) (e m : Z) :
  0 <= x -> (-1022 <= e <= 1023)%Z ->
  powerRZ 2 e <= x < powerRZ 2 (e + 1) ->
  Rabs (x / powerRZ 2 (e - 52) - IZR m) < 1 / 2 ->
  roundDouble x = IZR m * powerRZ 2 (e - 52).
Proof.
  intros Hx He Hb Hm. unfold roundDouble. cbv zeta.
  rewrite (Rabs_pos_eq x Hx).
  rewrite (exponentFrom_spec 2045 (-1022) e x) by (simpl; lia || exact Hb).
  rewrite (nearestEven_near _ _ Hm).
  destruct (Rlt_dec x 0); [lra | reflexivity].
Qed.

(** At a video height of 100 the line is at 70; at 720 it is one unit in
    the last place below 504 (the double 503.99999999999994), and
    likewise below 252 at 360 and below 1008 at 1440. *)
Lemma line_at_100 : roundDouble (100 * detectionLineY) = 70.
Proof.
  assert (U : powerRZ 2 (6 - 52) = / 70368744177664) by (simpl; f_equal; lra).
  rewrite (roundDouble_eval _ 6 4925812092436480).
  - rewrite U. lra.
  - unfold detectionLineY. lra.
  - lia.
  - unfold detectionLineY. simpl. lra.
  - rewrite U. unfold detectionLineY.
    replace (100 * (3152519739159347 / 4503599627370496) / / 70368744177664
             - 4925812092436480) with (- (5 / 16)) by lra.
    rewrite Rabs_Ropp, Rabs_pos_eq; lra.
Qed.

Lemma line_at_720 : roundDouble (720 * detectionLineY) = 504 - / 17592186044416.
Proof.
  assert (U : powerRZ 2 (8 - 52) = / 17592186044416) by (simpl; f_equal; lra).
  rewrite (roundDouble_eval _ 8 8866461766385663).
  - rewrite U. lra.
  - unfold detectionLineY. lra.
  - lia.
  - unfold detectionLineY. simpl. lra.
  - rewrite U. unfold detectionLineY.
    replace (720 * (3152519739159347 / 4503599627370496) / / 17592186044416
             - 8866461766385663) with (7 / 16) by lra.
    rewrite Rabs_pos_eq; lra.
Qed.

Lemma line_at_360 : roundDouble (360 * detectionLineY) = 252 - / 35184372088832.
Proof.
  assert (U : powerRZ 2 (7 - 52) = / 35184372088832) by (simpl; f_equal; lra).
  rewrite (roundDouble_eval _ 7 8866461766385663).
  - rewrite U. lra.
  - unfold detectionLineY. lra.
  - lia.
  - unfold detectionLineY. simpl. lra.
  - rewrite U. unfold detectionLineY.
    replace (360 * (3152519739159347 / 4503599627370496) / / 35184372088832
             - 8866461766385663) with (7 / 16) by lra.
    rewrite Rabs_pos_eq; lra.
Qed.

Lemma line_at_1440 : roundDouble (1440 * detectionLineY) = 1008 - / 8796093022208.
Proof.
  assert (U : powerRZ 2 (9 - 52) = / 8796093022208) by (simpl; f_equal; lra).
  rewrite (roundDouble_eval _ 9 8866461766385663).
  - rewrite U. lra.
  - unfold detectionLineY. lra.
  - lia.
  - unfold detectionLineY. simpl. lra.
  - rewrite U. unfold detectionLineY.
    replace (1440 * (3152519739159347 / 4503599627370496) / / 8796093022208
             - 8866461766385663) with (7 / 16) by lra.
    rewrite Rabs_pos_eq; lra.
Qed.

(** *** The example frames *)

Lemma Math_atan2_right (y x : R) : 0 < x -> Math_atan2 y x = atan (y / x).
Proof. intros H. unfold Math_atan2. now destruct (Rlt_dec 0 x). Qed.

Lemma Math_atan2_up_left (y x : R) :
  x < 0 -> 0 <= y -> Math_atan2 y x = atan (y / x) + PI.
Proof.
  intros Hx Hy. unfold Math_atan2.
  destruct (Rlt_dec 0 x); [lra |].
  destruct (Rlt_dec x 0); [| lra].
  now destruct (Rle_dec 0 y).
Qed.

Lemma Math_atan2_down_right (y x : R) : 0 < x -> y < 0 -> Math_atan2 y x < 0.
Proof.
  intros Hx Hy. rewrite (Math_atan2_right _ _ Hx).
  rewrite <- atan_0. apply atan_increasing.
  unfold Rdiv. assert (0 < / x) by now apply Rinv_0_lt_compat. nra.
Qed.

Lemma angle_right_example : angle rightShoulder rightWrist = 45.
Proof.
  unfold angle, rightShoulder, rightWrist. cbn [kx ky].
  rewrite Math_atan2_right by lra.
  replace ((70 - 60) / (50 - 40)) with 1 by lra.
  rewrite atan_1. pose proof PI_RGT_0. field. lra.
Qed.

Lemma angle_left_example : angle leftShoulder leftWrist = 135.
Proof.
  unfold angle, leftShoulder, leftWrist. cbn [kx ky].
  rewrite Math_atan2_up_left by lra.
  replace ((70 - 60) / (50 - 60)) with (Ropp 1) by lra.
  rewrite atan_opp, atan_1. pose proof PI_RGT_0. field. lra.
Qed.

Lemma wf_exampleFrame : wf_frame exampleFrame.
Proof. split; repeat constructor; simpl; lia. Qed.

Lemma wf_twoRightHands : wf_frame twoRightHands.
Proof. split; repeat constructor; simpl; lia. Qed.

(** The example frame makes both arms qualify. *)
Lemma exampleFrame_bothOk : newHandStates exampleFrame = Some Loop.bothOk.
Proof.
  rewrite (newHandStates_wf _ wf_exampleFrame).
  change (lastOfSide left (handPredictions exampleFrame)) with (Some leftHand).
  change (lastOfSide right (handPredictions exampleFrame)) with (Some rightHand).
  rewrite (statusFor_some _ left _ leftHand leftWrist eq_refl).
  rewrite (statusFor_some _ right _ rightHand rightWrist eq_refl).
  change (shoulderOf (posePredictions exampleFrame) left) with (Some leftShoulder).
  change (shoulderOf (posePredictions exampleFrame) right) with (Some rightShoulder).
  cbv iota beta.
  assert (Esl : Rltb (3 / 10) (score leftShoulder) = true)
    by (apply Rltb_true; simpl; lra).
  assert (Esr : Rltb (3 / 10) (score rightShoulder) = true)
    by (apply Rltb_true; simpl; lra).
  rewrite Esl, Esr.
  assert (El : Rleb (angleDiff left leftShoulder leftWrist) angleTolerance = true).
  { apply Rleb_true. unfold angleDiff, angleTolerance.
    rewrite normalizedAngle_nonneg; rewrite angle_left_example; [| lra].
    simpl. replace (135 - 135) with 0 by lra. rewrite Rabs_R0. lra. }
  assert (Er : Rleb (angleDiff right rightShoulder rightWrist) angleTolerance = true).
  { apply Rleb_true. unfold angleDiff, angleTolerance.
    rewrite normalizedAngle_nonneg; rewrite angle_right_example; [| lra].
    simpl. replace (45 - 45) with 0 by lra. rewrite Rabs_R0. lra. }
  assert (Eline : forall x, shoulderOnLine (shoulderLineY exampleFrame)
                              (mkKeypoint x 70 (9 / 10)) = true).
  { intros x. apply Rltb_true. unfold shoulderLineY.
    change (videoHeight exampleFrame) with 100. rewrite line_at_100. simpl.
    replace (70 - 70) with 0 by lra. rewrite Rabs_R0. lra. }
  rewrite El, Er.
  rewrite (Eline 60 : shoulderOnLine _ leftShoulder = true).
  rewrite (Eline 40 : shoulderOnLine _ rightShoulder = true).
  reflexivity.
Qed.

Lemma emptyFrame_noHands : newHandStates emptyFrame = Some initialHandStates.
Proof. reflexivity. Qed.

(** The two feeds are what the classifier makes of the two cameras. *)
Lemma allOkFeed_camera (t : Z) : Loop.classify (allOkCamera t) = allOkFeed t.
Proof. exact exampleFrame_bothOk. Qed.

Lemma lapseFeed_camera (t : Z) : Loop.classify (lapseCamera t) = lapseFeed t.
Proof.
  unfold lapseCamera, lapseFeed.
  destruct ((t <? 5000)%Z || (59000 <=? t)%Z); simpl.
  - exact exampleFrame_bothOk.
  - exact emptyFrame_noHands.
Qed.

(** In the 720-pixel frame the computed line is just below 504, so the
    shoulder at y = 484 is less than 20 pixels from it and counts as on
    the line, although it is exactly 20 pixels from 70% of the height. *)
Lemma hdFrame_shoulder_on_line :
  exists hs, newHandStates hdFrame = Some hs /\
             shoulderTouching (get hs right) = true /\
             Rabs (ky hdRightShoulder - shoulderLineY hdFrame) < 20 /\
             Rabs (ky hdRightShoulder - 720 * (7 / 10)) = 20.
Proof.
  assert (Hwf : wf_frame hdFrame) by (split; repeat constructor; simpl; lia).
  destruct (newHandStates_side hdFrame right Hwf) as (hs & E & Hget).
  assert (Hline : Rabs (ky hdRightShoulder - shoulderLineY hdFrame) < 20).
  { unfold shoulderLineY. change (videoHeight hdFrame) with 720.
    rewrite line_at_720. simpl.
    replace (484 - (504 - / 17592186044416)) with (- (20 - / 17592186044416)) by lra.
    rewrite Rabs_Ropp, Rabs_pos_eq; lra. }
  exists hs. split; [exact E |]. split; [| split; [exact Hline |]].
  - rewrite Hget.
    change (lastOfSide right (handPredictions hdFrame)) with (Some (mkHand "Right" [hdWrist])).
    change (shoulderOf (posePredictions hdFrame) right) with (Some hdRightShoulder).
    rewrite (statusFor_some _ right _ (mkHand "Right" [hdWrist]) hdWrist eq_refl).
    assert (Es : Rltb (3 / 10) (score hdRightShoulder) = true)
      by (apply Rltb_true; simpl; lra).
    rewrite Es. cbn [shoulderTouching]. unfold shoulderOnLine.
    now apply Rltb_true.
  - simpl. replace (484 - 720 * (7 / 10)) with (Ropp 20) by lra.
    rewrite Rabs_Ropp, Rabs_pos_eq; lra.
Qed.

(** The other feeds are what the classifier makes of their cameras. *)
Lemma blipFeed_camera (t : Z) : Loop.classify (blipCamera t) = blipFeed t.
Proof.
  unfold blipCamera, blipFeed. destruct (t =? 500)%Z; simpl.
  - exact emptyFrame_noHands.
  - exact exampleFrame_bothOk.
Qed.

Lemma dipFeed_camera (t : Z) : Loop.classify (dipCamera t) = dipFeed t.
Proof.
  unfold dipCamera, dipFeed.
  destruct ((500 <=? t)%Z && (t <? 1450)%Z); simpl.
  - exact emptyFrame_noHands.
  - exact exampleFrame_bothOk.
Qed.

(** A pose with fewer than 7 joints makes [detect] throw at line 140. *)
Lemma shortPoseFrame_throws : newHandStates shortPoseFrame = None.
Proof. reflexivity. Qed.

(** *** The frame claims *)

(** C7.  For the shoulder [sh] of a side (score above 0.3) and the wrist
    [w] of the hand that decides that side, the angle is
    [atan2(sh.y - w.y, w.x - sh.x)] in degrees, which lies in (-180, 180];
    a negative value has 360 added, so the normalized angle lies in
    [0, 360); and [correctAngle] is set exactly when the raw absolute
    difference between the normalized angle and the target (45 for the
    right side, 135 for the left side) is at most 15. *)
Theorem angle_computation_and_match
    (f : Frame) (s : Side) (sh w : Keypoint) (h : HandPrediction) :
  wf_frame f ->
  shoulderOf (posePredictions f) s = Some sh ->
  3 / 10 < score sh ->
  lastOfSide s (handPredictions f) = Some h ->
  nth_error (landmarks h) 0 = Some w ->
  let a := Math_atan2 (ky sh - ky w) (kx w - kx sh) * (180 / PI) in
  let n := normalizedAngle sh w in
  let target := match s with right => 45 | left => 135 end in
  -180 < a <= 180 /\
  (a < 0 -> n = a + 360) /\
  (0 <= a -> n = a) /\
  0 <= n < 360 /\
  exists hs, newHandStates f = Some hs /\
             (correctAngle (get hs s) = true <-> Rabs (n - target) <= 15).
Proof.
  intros Hwf Hsh Hscore Hlast Hw a n target.
  split; [exact (angle_range sh w) |].
  split; [exact (normalizedAngle_neg sh w) |].
  split; [exact (normalizedAngle_nonneg sh w) |].
  split; [exact (normalizedAngle_range sh w) |].
  destruct (newHandStates_side f s Hwf) as (hs & E & Hget).
  exists hs. split; [exact E |].
  rewrite Hget, Hsh, Hlast, (statusFor_some _ _ _ _ _ Hw).
  apply Rltb_true in Hscore. rewrite Hscore. cbn [correctAngle].
  rewrite Rleb_true. unfold angleDiff, angleTolerance, targetAngleForSide.
  subst n target. now destruct s.
Qed.

Lemma angle_computation_and_match_witness :
  exists hs, newHandStates exampleFrame = Some hs /\
    (correctAngle (get hs right) = true <->
     Rabs (normalizedAngle rightShoulder rightWrist - 45) <= 15).
Proof.
  apply (angle_computation_and_match exampleFrame right rightShoulder rightWrist rightHand).
  - exact wf_exampleFrame.
  - reflexivity.
  - simpl. lra.
  - reflexivity.
  - reflexivity.
Defined.



End GeometryFacts.

(* ------------------------------------------------------------------ *)
(** ** Facts about the state setters and the effects *)
(* ------------------------------------------------------------------ *)

Module ComponentFacts.

Import Geometry Component Loop Scenarios GeometryFacts.
Local Open Scope Z_scope.

(** *** What a render can change *)

Lemma st_timerEffect prev rt : st (timerEffect prev rt) = st rt.
Proof.
  unfold timerEffect. cbv zeta.
  destruct (timerDepsSame prev (st rt)); [reflexivity |].
  now destruct (negb (challengeStarted (st rt)) || (timeLeft (st rt) <=? 0)).
Qed.

Lemma st_detectionEffect prev rt : st (detectionEffect prev rt) = st rt.
Proof.
  unfold detectionEffect. cbv zeta.
  destruct (detectionDepsSame prev (st rt)); [reflexivity |].
  now destruct (isLoading (st rt) || negb (challengeStarted (st rt))).
Qed.

Lemma st_renderPass prev rt :
  st (renderPass prev rt) = st rt \/ st (renderPass prev rt) = timerCompletion (st rt).
Proof.
  unfold renderPass. cbv zeta.
  destruct (completionDepsSame prev (st rt)).
  - left. now rewrite st_detectionEffect, st_timerEffect.
  - right. reflexivity.
Qed.

Lemma timerCompletion_idem s : timerCompletion (timerCompletion s) = timerCompletion s.
Proof.
  unfold timerCompletion.
  destruct ((timeLeft s <=? 0) && challengeStarted s) eqn:E; [| now rewrite E].
  destruct (isComplete s); simpl; now rewrite andb_false_r.
Qed.

(** After the renders the state is the handler's, possibly with the
    completion effect applied. *)
Lemma st_commit prev rt :
  st (commit prev rt) = st rt \/ st (commit prev rt) = timerCompletion (st rt).
Proof.
  unfold commit.
  destruct (st_renderPass (st rt) (renderPass prev rt)) as [E | E];
    destruct (st_renderPass prev rt) as [E' | E']; rewrite E, E';
    rewrite ?timerCompletion_idem; auto.
Qed.

Lemma timerDepsSame_refl s : timerDepsSame s s = true.
Proof. unfold timerDepsSame. now rewrite eqb_reflx, Z.eqb_refl. Qed.

Lemma completionDepsSame_refl s : completionDepsSame s s = true.
Proof. unfold completionDepsSame. now rewrite !eqb_reflx, Z.eqb_refl. Qed.

Lemma detectionDepsSame_refl s : detectionDepsSame s s = true.
Proof.
  unfold detectionDepsSame. rewrite !eqb_reflx.
  destruct (holdCountdown s) as [c |], (currentSide s); simpl;
    rewrite ?Z.eqb_refl; reflexivity.
Qed.

Lemma renderPass_same rt : renderPass (st rt) rt = rt.
Proof.
  unfold renderPass, timerEffect, detectionEffect. cbv zeta.
  now rewrite timerDepsSame_refl, detectionDepsSame_refl, completionDepsSame_refl.
Qed.

Lemma challengeStarted_timerCompletion s :
  timerCompletion s <> s -> challengeStarted (timerCompletion s) = false.
Proof.
  unfold timerCompletion.
  destruct ((timeLeft s <=? 0) && challengeStarted s); [| congruence].
  now destruct (isComplete s).
Qed.

(** Two renders are enough: the second one no longer changes the state,
    so a third would find every dependency unchanged. *)
Lemma commit_settled prev rt :
  st (commit prev rt) = st (renderPass prev rt) /\
  renderPass (st (renderPass prev rt)) (commit prev rt) = commit prev rt.
Proof.
  assert (H : st (commit prev rt) = st (renderPass prev rt));
    [| split; [exact H | rewrite <- H; apply renderPass_same]].
  unfold commit.
  set (rt1 := renderPass prev rt).
  unfold renderPass at 1. cbv zeta.
  destruct (completionDepsSame (st rt) (st rt1)) eqn:D.
  - now rewrite st_detectionEffect, st_timerEffect.
  - simpl.
    assert (Hne : st rt1 <> st rt).
    { intros E. rewrite E, completionDepsSame_refl in D. discriminate. }
    destruct (st_renderPass prev rt) as [E | E]; fold rt1 in E; [congruence |].
    assert (Hc : challengeStarted (st rt1) = false).
    { rewrite E. apply challengeStarted_timerCompletion. congruence. }
    unfold timerCompletion. now rewrite Hc, andb_false_r.
Qed.

Lemma sameHold_timerCompletion s : sameHold (timerCompletion s) s.
Proof.
  unfold timerCompletion.
  destruct ((timeLeft s <=? 0) && challengeStarted s); [| now split].
  destruct (isComplete s); now split.
Qed.

Lemma sameHold_commit prev rt : sameHold (st (commit prev rt)) (st rt).
Proof.
  destruct (st_commit prev rt) as [-> | ->];
    [now split | apply sameHold_timerCompletion].
Qed.

Lemma onCompleteCalls_renderPass prev rt :
  onCompleteCalls (renderPass prev rt) = onCompleteCalls rt.
Proof.
  unfold renderPass, timerEffect, detectionEffect, clear, arm, withTimers, withSt.
  cbv zeta.
  repeat match goal with
         | |- context [if ?b then _ else _] => destruct b; simpl
         end; reflexivity.
Qed.

Lemma onCompleteCalls_commit prev rt :
  onCompleteCalls (commit prev rt) = onCompleteCalls rt.
Proof. unfold commit. now rewrite !onCompleteCalls_renderPass. Qed.

Lemma onCompleteCalls_callback t input rt :
  onCompleteCalls (callback t input rt) = onCompleteCalls rt.
Proof.
  unfold callback. cbv zeta.
  destruct (kind t); simpl; [| reflexivity | reflexivity].
  destruct input as [hs |]; simpl; [| reflexivity].
  now destruct (detectArms hs (st rt)).
Qed.

(** *** The tail of [detect] *)

Lemma handStates_detectSet hs s : handStates (detectSet hs s) = hs.
Proof.
  unfold detectSet. cbv zeta.
  destruct (qualifies (get hs (currentSide s))); [| reflexivity].
  destruct (holdCountdown s) as [c |]; [| reflexivity].
  destruct (0 <? c); [reflexivity |].
  now destruct (currentSide s).
Qed.

Lemma st_callback_detect t hs rt :
  kind t = DetectInterval ->
  st (callback t (Some hs) rt) = detectSet hs (st rt).
Proof. intros H. unfold callback. cbv zeta. now rewrite H. Qed.

Lemma currentSide_detectSet hs s :
  currentSide (detectSet hs s) = currentSide s \/
  (currentSide s = right /\ currentSide (detectSet hs s) = left /\
   qualifies (get hs right) = true).
Proof.
  unfold detectSet. cbv zeta.
  destruct (qualifies (get hs (currentSide s))) eqn:Q; [| now left].
  destruct (holdCountdown s) as [c |]; [| now left].
  destruct (0 <? c); [now left |].
  destruct (currentSide s) eqn:E; simpl; rewrite ?E; auto.
Qed.

(** C5.  When the current side qualifies and the countdown is 0, a tick
    on the right side switches to the left side and clears the countdown,
    and a tick on the left side sets [isComplete].  The side starts as
    right, [startChallenge] sets it to right, and no action moves it
    except a qualifying detection tick (right to left) and the Start and
    Retake buttons (back to right). *)
Theorem hold_done_advances_right_then_left (hs : HandStates) (s : State) :
  qualifies (get hs (currentSide s)) = true ->
  holdCountdown s = Some 0 ->
  (currentSide s = right ->
     currentSide (detectSet hs s) = left /\
     holdCountdown (detectSet hs s) = None /\
     isComplete (detectSet hs s) = isComplete s) /\
  (currentSide s = left ->
     isComplete (detectSet hs s) = true /\
     currentSide (detectSet hs s) = left) /\
  currentSide initialState = right /\
  (forall s0, currentSide (startChallenge s0) = right) /\
  (forall a rt,
     currentSide (st (step a rt)) = currentSide (st rt) \/
     (currentSide (st rt) = right /\ currentSide (st (step a rt)) = left /\
      exists t hs', a = Fire t (Some hs') /\ kind t = DetectInterval /\
                    qualifies (get hs' right) = true) \/
     (currentSide (st (step a rt)) = right /\ (a = ClickStart \/ a = ClickRetake))).
Proof.
  intros Q H0.
  split; [| split; [| split; [reflexivity | split; [reflexivity |]]]].
  - intros Hs. unfold detectSet. cbv zeta. rewrite Q, H0, Hs. simpl. auto.
  - intros Hs. unfold detectSet. cbv zeta. rewrite Q, H0, Hs. simpl. auto.
  - intros a rt. unfold step.
    rewrite (same_currentSide _ _ (sameHold_commit (st rt) (handle a rt))).
    destruct a as [| | | | t input]; simpl.
    + now left.
    + destruct (showStartModal (st rt) && negb (isLoading (st rt))); simpl; auto.
    + destruct (showCompletionModal (st rt)); simpl; auto.
    + destruct (showCompletionModal (st rt)); simpl; auto.
    + destruct (pending t rt); [| now left].
      unfold callback. cbv zeta.
      destruct (kind t) eqn:K; simpl; [| now left | now left].
      destruct input as [hs' |]; simpl; [| now left].
      destruct (currentSide_detectSet hs' (st rt)) as [E | (E1 & E2 & E3)].
      * now left.
      * right. left. split; [exact E1 |]. split; [exact E2 |].
        exists t, hs'. auto.
Qed.

Lemma hold_done_advances_right_then_left_witness :
  currentSide (detectSet bothOk (setHoldCountdown (Some 0) freshSession)) = left /\
  holdCountdown (detectSet bothOk (setHoldCountdown (Some 0) freshSession)) = None.
Proof.
  pose proof (hold_done_advances_right_then_left bothOk
                (setHoldCountdown (Some 0) freshSession) eq_refl eq_refl) as H.
  destruct H as [H _].
  destruct (H eq_refl) as (H1 & H2 & _).
  split; [exact H1 | exact H2].
Defined.

(** What the tick itself writes: on a detection tick whose current side
    does not qualify (detected, correctAngle and shoulderTouching are not
    all true) the countdown is set to null whatever it was, no decrement
    is scheduled, and neither the side nor [isComplete] changes.  The
    decrements scheduled by earlier ticks stay pending. *)
Theorem disqualifying_frame_resets_hold (hs : HandStates) (s : State) :
  qualifies (get hs (currentSide s)) = false ->
  holdCountdown (detectSet hs s) = None /\
  detectArms hs s = false /\
  currentSide (detectSet hs s) = currentSide s /\
  isComplete (detectSet hs s) = isComplete s /\
  (forall rt t,
     st rt = s -> pending t rt = true -> kind t = DetectInterval ->
     holdCountdown (st (step (Fire t (Some hs)) rt)) = None).
Proof.
  intros Q.
  assert (E : detectSet hs s = setHoldCountdown None (setHandStates hs s)).
  { unfold detectSet. cbv zeta. now rewrite Q. }
  rewrite E. repeat split.
  - unfold detectArms. now rewrite Q.
  - intros rt t Hst Hp Hk. unfold step.
    rewrite (same_holdCountdown _ _ (sameHold_commit _ _)).
    simpl. rewrite Hp, (st_callback_detect _ _ _ Hk), Hst, E. reflexivity.
Qed.

Lemma disqualifying_frame_resets_hold_witness :
  holdCountdown (detectSet initialHandStates (setHoldCountdown (Some 7) freshSession)) = None.
Proof.
  exact (proj1 (disqualifying_frame_resets_hold initialHandStates
                  (setHoldCountdown (Some 7) freshSession) eq_refl)).
Defined.

(** C9.  A well-formed frame is classified without an exception.  A side
    with no hand in the frame gets all three flags false; a side whose
    shoulder is missing (no pose) or has a score of 0.3 or less gets
    [correctAngle] and [shoulderTouching] false; and the [handStates]
    stored by the tick is the new record whatever the previous state
    held. *)
Theorem side_status_recomputed_each_frame (f : Frame) :
  wf_frame f ->
  exists hs, newHandStates f = Some hs /\
    (forall s, (forall h, In h (handPredictions f) -> sideOf h <> s) ->
               get hs s = mkStatus false false false) /\
    (forall s, shoulderOf (posePredictions f) s = None ->
               correctAngle (get hs s) = false /\ shoulderTouching (get hs s) = false) /\
    (forall s sh, shoulderOf (posePredictions f) s = Some sh ->
                  (score sh <= 3 / 10)%R ->
                  correctAngle (get hs s) = false /\ shoulderTouching (get hs s) = false) /\
    (forall prev : State, handStates (detectSet hs prev) = hs).
Proof.
  intros Hwf.
  pose proof (newHandStates_wf f Hwf) as E.
  eexists. split; [exact E |].
  assert (G : forall s,
             get {| hs_left := statusFor (shoulderLineY f) left
                                 (shoulderOf (posePredictions f) left)
                                 (lastOfSide left (handPredictions f));
                    hs_right := statusFor (shoulderLineY f) right
                                  (shoulderOf (posePredictions f) right)
                                  (lastOfSide right (handPredictions f)) |} s
             = statusFor (shoulderLineY f) s (shoulderOf (posePredictions f) s)
                         (lastOfSide s (handPredictions f)))
    by (intros []; reflexivity).
  split; [| split; [| split]].
  - intros s Hno. rewrite G. apply lastOfSide_None in Hno. now rewrite Hno.
  - intros s Hsh. rewrite G, Hsh. apply statusFor_no_shoulder.
  - intros s sh Hsh Hscore. rewrite G, Hsh.
    apply statusFor_low_score. now apply Rltb_false.
  - intros prev. apply handStates_detectSet.
Qed.

Lemma side_status_recomputed_each_frame_witness :
  exists hs, newHandStates exampleFrame = Some hs /\
             (forall prev : State, handStates (detectSet hs prev) = hs).
Proof.
  destruct (side_status_recomputed_each_frame exampleFrame wf_exampleFrame)
    as (hs & E & _ & _ & _ & H).
  exists hs. split; [exact E | exact H].
Defined.

(** C10.  The classification is a function of the frame: frames with the
    same video height, poses and hands give the same result.  When
    several hands fall on one side, the side's flags are those of the
    frame that keeps only the last of them. *)
Theorem classification_deterministic_last_hand_wins (f : Frame) (s : Side) :
  wf_frame f ->
  (forall g, videoHeight g = videoHeight f ->
             posePredictions g = posePredictions f ->
             handPredictions g = handPredictions f ->
             newHandStates g = newHandStates f) /\
  exists hs hs1,
    newHandStates f = Some hs /\
    newHandStates (withHands f (optionToList (lastOfSide s (handPredictions f))))
      = Some hs1 /\
    get hs s = get hs1 s.
Proof.
  intros Hwf. split.
  - intros [vh ps hs] Hv Hp Hh. simpl in *. subst. now destruct f.
  - assert (Hwf1 : wf_frame (withHands f (optionToList (lastOfSide s (handPredictions f))))).
    { destruct Hwf as [Hp Hh]. split; [exact Hp |]. simpl.
      destruct (lastOfSide s (handPredictions f)) as [h |] eqn:El; simpl; [| constructor].
      constructor; [| constructor].
      rewrite Forall_forall in Hh. apply Hh. now apply (lastOfSide_In s). }
    destruct (newHandStates_side f s Hwf) as (hs & E & G).
    destruct (newHandStates_side _ s Hwf1) as (hs1 & E1 & G1).
    exists hs, hs1. split; [exact E |]. split; [exact E1 |].
    rewrite G, G1. simpl. unfold shoulderLineY. simpl.
    destruct (lastOfSide s (handPredictions f)) as [h |] eqn:El; [| reflexivity].
    pose proof (lastOfSide_side _ _ _ El) as Hs.
    assert (L : lastOfSide s (optionToList (Some h)) = Some h).
    { unfold lastOfSide. simpl. apply Side_eqb_eq in Hs. now rewrite Hs. }
    now rewrite L.
Qed.

Lemma classification_deterministic_last_hand_wins_witness :
  exists hs hs1,
    newHandStates twoRightHands = Some hs /\
    newHandStates (withHands twoRightHands [rightHand]) = Some hs1 /\
    get hs right = get hs1 right.
Proof.
  exact (proj2 (classification_deterministic_last_hand_wins twoRightHands right
                  wf_twoRightHands)).
Defined.

(** With the dropped right hand listed first, the raised one decides. *)
Lemma twoRightHands_bothOk : newHandStates twoRightHands = Some bothOk.
Proof.
  rewrite <- exampleFrame_bothOk.
  rewrite (newHandStates_wf _ wf_twoRightHands), (newHandStates_wf _ wf_exampleFrame).
  reflexivity.
Qed.

End ComponentFacts.

(* ------------------------------------------------------------------ *)
(** ** Facts about whole sessions *)
(* ------------------------------------------------------------------ *)

Module SessionFacts.

Import Geometry Component Loop Scenarios ComponentFacts.
Local Open Scope Z_scope.

(** *** Start and reset *)

Lemma modalGate_timerCompletion s : modalGate s -> modalGate (timerCompletion s).
Proof.
  unfold modalGate, timerCompletion. intros H.
  destruct ((timeLeft s <=? 0) && challengeStarted s); [| exact H].
  now destruct (isComplete s).
Qed.

Lemma modalGate_detectSet hs s : modalGate s -> modalGate (detectSet hs s).
Proof.
  unfold modalGate, detectSet. cbv zeta. intros H.
  destruct (qualifies (get hs (currentSide s))); [| exact H].
  destruct (holdCountdown s) as [c |]; [| exact H].
  destruct (0 <? c); [exact H |].
  now destruct (currentSide s).
Qed.

Lemma modalGate_handle a rt : modalGate (st rt) -> modalGate (st (handle a rt)).
Proof.
  intros H. destruct a as [| | | | t input]; simpl.
  - exact H.
  - destruct (showStartModal (st rt) && negb (isLoading (st rt))); [| exact H].
    intros E. discriminate E.
  - destruct (showCompletionModal (st rt)); [| exact H]. now intros _.
  - now destruct (showCompletionModal (st rt)).
  - destruct (pending t rt); [| exact H].
    unfold callback. cbv zeta.
    destruct (kind t); simpl; [| exact H | exact H].
    destruct input as [hs |]; simpl; [| exact H].
    now apply modalGate_detectSet.
Qed.

Lemma modalGate_reachable rt : reachable rt -> modalGate (st rt).
Proof.
  induction 1 as [| a rt _ IH | T rt _ IH].
  - now intros _.
  - unfold step.
    destruct (st_commit (st rt) (handle a rt)) as [-> | ->].
    + now apply modalGate_handle.
    + now apply modalGate_timerCompletion, modalGate_handle.
  - exact IH.
Qed.

(** [startChallenge] has no guard of its own: from every state it sets
    the session timer to 60, the hold countdown to null, the side to
    right and the challenge to started.  Its only caller is the Start
    button, rendered only with the start modal, and in every reachable
    state the start modal is shown only while the challenge is not
    running. *)
Theorem start_resets_and_is_gated_by_modal :
  (forall s,
     timeLeft (startChallenge s) = 60 /\
     holdCountdown (startChallenge s) = None /\
     currentSide (startChallenge s) = right /\
     challengeStarted (startChallenge s) = true /\
     isComplete (startChallenge s) = false /\
     showStartModal (startChallenge s) = false) /\
  (forall rt, reachable rt ->
     showStartModal (st rt) = true -> challengeStarted (st rt) = false).
Proof.
  split.
  - intros s. repeat split.
  - exact modalGate_reachable.
Qed.

Lemma start_resets_and_is_gated_by_modal_witness :
  challengeStarted (st (step ClickRetake (step ModelsLoaded mount))) = false.
Proof.
  apply (proj2 start_resets_and_is_gated_by_modal).
  - apply reach_step, reach_step, reach_mount.
  - reflexivity.
Defined.

(** *** A full hold on each side *)

Lemma iter_decrementHold (n : nat) (s : State) (c : Z) :
  holdCountdown s = Some c ->
  Nat.iter n decrementHold s = setHoldCountdown (Some (c - Z.of_nat n)) s.
Proof.
  intros H. induction n as [| n IH].
  - simpl. rewrite Z.sub_0_r, <- H. now destruct s.
  - rewrite Nat2Z.inj_succ. simpl. rewrite IH.
    unfold decrementHold, setHoldCountdown. simpl.
    do 2 f_equal. lia.
Qed.

Lemma fullHold_right hs s :
  qualifies (get hs right) = true ->
  currentSide s = right -> holdCountdown s = None ->
  fullHold hs s = setHoldCountdown None (setCurrentSide left (setHandStates hs s)).
Proof.
  intros Q Hs Hc. unfold fullHold.
  assert (E1 : detectSet hs s = setHoldCountdown (Some holdDuration) (setHandStates hs s)).
  { unfold detectSet. cbv zeta. now rewrite Hs, Q, Hc. }
  rewrite E1.
  rewrite (iter_decrementHold _ (setHoldCountdown (Some holdDuration) (setHandStates hs s))
             holdDuration eq_refl).
  unfold detectSet. cbv zeta. simpl. rewrite Hs, Q. reflexivity.
Qed.

Lemma fullHold_left hs s :
  qualifies (get hs left) = true ->
  currentSide s = left -> holdCountdown s = None ->
  fullHold hs s = setIsComplete true (setHoldCountdown (Some 0) (setHandStates hs s)).
Proof.
  intros Q Hs Hc. unfold fullHold.
  assert (E1 : detectSet hs s = setHoldCountdown (Some holdDuration) (setHandStates hs s)).
  { unfold detectSet. cbv zeta. now rewrite Hs, Q, Hc. }
  rewrite E1.
  rewrite (iter_decrementHold _ (setHoldCountdown (Some holdDuration) (setHandStates hs s))
             holdDuration eq_refl).
  unfold detectSet. cbv zeta. simpl. rewrite Hs, Q. reflexivity.
Qed.

Lemma onCompleteCalls_step a rt :
  a <> ClickContinue -> onCompleteCalls (step a rt) = onCompleteCalls rt.
Proof.
  intros Ha. unfold step. rewrite onCompleteCalls_commit.
  destruct a as [| | | | t input]; simpl.
  - reflexivity.
  - now destruct (showStartModal (st rt) && negb (isLoading (st rt))).
  - now destruct (showCompletionModal (st rt)).
  - congruence.
  - destruct (pending t rt); [apply onCompleteCalls_callback | reflexivity].
Qed.

(** C2 as the code has it.  A hold on the right side that runs its
    countdown from [holdDuration] to 0, followed by one on the left side,
    sets [isComplete]; the challenge is still running and no modal is
    shown.  The completion modal appears when the session timer reaches
    0 with [isComplete] set.  No action other than the Continue button
    calls [onComplete], and each press of Continue (rendered with the
    completion modal) calls it once. *)
Theorem completion_waits_for_continue (hsR hsL : HandStates) (s : State) :
  qualifies (get hsR right) = true ->
  qualifies (get hsL left) = true ->
  currentSide s = right ->
  holdCountdown s = None ->
  (isComplete (fullHold hsL (fullHold hsR s)) = true /\
   currentSide (fullHold hsL (fullHold hsR s)) = left /\
   challengeStarted (fullHold hsL (fullHold hsR s)) = challengeStarted s /\
   showCompletionModal (fullHold hsL (fullHold hsR s)) = showCompletionModal s) /\
  (forall s0, timeLeft s0 <= 0 -> challengeStarted s0 = true -> isComplete s0 = true ->
     showCompletionModal (timerCompletion s0) = true /\
     challengeStarted (timerCompletion s0) = false) /\
  (forall a rt, a <> ClickContinue -> onCompleteCalls (step a rt) = onCompleteCalls rt) /\
  (forall rt, onCompleteCalls (step ClickContinue rt) =
              if showCompletionModal (st rt) then S (onCompleteCalls rt)
              else onCompleteCalls rt).
Proof.
  intros QR QL Hs Hc.
  split; [| split; [| split]].
  - rewrite (fullHold_right hsR s QR Hs Hc).
    rewrite (fullHold_left hsL
               (setHoldCountdown None (setCurrentSide left (setHandStates hsR s)))
               QL eq_refl eq_refl).
    repeat split.
  - intros s0 Ht Hcs Hic. unfold timerCompletion.
    apply Z.leb_le in Ht. rewrite Ht, Hcs, Hic. now split.
  - exact onCompleteCalls_step.
  - intros rt. unfold step. rewrite onCompleteCalls_commit. simpl.
    now destruct (showCompletionModal (st rt)).
Qed.

Lemma completion_waits_for_continue_witness :
  isComplete (fullHold bothOk (fullHold bothOk freshSession)) = true /\
  challengeStarted (fullHold bothOk (fullHold bothOk freshSession)) = true /\
  showCompletionModal (fullHold bothOk (fullHold bothOk freshSession)) = false.
Proof.
  destruct (completion_waits_for_continue bothOk bothOk freshSession
              eq_refl eq_refl eq_refl eq_refl) as [(H1 & _ & H3 & H4) _].
  split; [exact H1 | split; [exact H3 | exact H4]].
Defined.

(** C2 as stated fails: with both arms held for the whole session,
    [isComplete] turns true at 4.4 s and the completion modal is shown at
    60 s, and [onComplete] has not been called at 61 s. *)
Lemma completion_fires_no_notification :
  observe (fun r => (isComplete (st r), onCompleteCalls r)) (heldSession 4399)
    = Some (false, 0%nat) /\
  observe (fun r => (isComplete (st r), challengeStarted (st r), onCompleteCalls r))
          (heldSession 4400)
    = Some (true, true, 0%nat) /\
  observe (fun r => (isComplete (st r), challengeStarted (st r),
                     showCompletionModal (st r), onCompleteCalls r))
          (heldSession 61000)
    = Some (true, false, true, 0%nat).
Proof. repeat split; vm_compute; reflexivity. Qed.

(** *** The hold timeouts *)

Lemma pendingDecrements_arm k d rt :
  pendingDecrements (arm k d rt) =
  (pendingDecrements rt + if TimerKind_eqb k HoldTimeout then 1 else 0)%nat.
Proof.
  unfold pendingDecrements, arm. simpl.
  rewrite filter_app, length_app. unfold isHold. simpl.
  now destruct (TimerKind_eqb k HoldTimeout).
Qed.

Lemma pendingDecrements_clear k rt :
  k <> HoldTimeout -> pendingDecrements (clear k rt) = pendingDecrements rt.
Proof.
  intros Hk. unfold pendingDecrements, clear. simpl.
  induction (timers rt) as [| t ts IH]; [reflexivity |]. simpl.
  unfold isHold in *.
  destruct (kind t) eqn:Kt, k; simpl; rewrite ?Kt; simpl;
    try congruence; now rewrite ?IH.
Qed.

Lemma pendingDecrements_renderPass prev rt :
  pendingDecrements (renderPass prev rt) = pendingDecrements rt.
Proof.
  assert (T : pendingDecrements (timerEffect prev rt) = pendingDecrements rt).
  { unfold timerEffect. cbv zeta.
    destruct (timerDepsSame prev (st rt)); [reflexivity |].
    destruct (negb (challengeStarted (st rt)) || (timeLeft (st rt) <=? 0));
      rewrite ?pendingDecrements_arm, pendingDecrements_clear; simpl;
      try discriminate; lia. }
  assert (D : forall r, pendingDecrements (detectionEffect prev r) = pendingDecrements r).
  { intros r. unfold detectionEffect. cbv zeta.
    destruct (detectionDepsSame prev (st r)); [reflexivity |].
    destruct (isLoading (st r) || negb (challengeStarted (st r)));
      rewrite ?pendingDecrements_arm, pendingDecrements_clear; simpl;
      try discriminate; lia. }
  unfold renderPass. cbv zeta.
  destruct (completionDepsSame prev (st rt)).
  - now rewrite D, T.
  - change (pendingDecrements (detectionEffect prev (timerEffect prev rt))
            = pendingDecrements rt).
    now rewrite D, T.
Qed.

Lemma pendingDecrements_commit prev rt :
  pendingDecrements (commit prev rt) = pendingDecrements rt.
Proof. unfold commit. now rewrite !pendingDecrements_renderPass. Qed.

Lemma filter_removeTimer_other t ts :
  isHold t = false ->
  filter isHold (removeTimer t ts) = filter isHold ts.
Proof.
  intros Ht. induction ts as [| u r IH]; [reflexivity |]. simpl.
  destruct (Timer_eqb t u) eqn:E.
  - unfold Timer_eqb in E. apply andb_prop in E as [_ E].
    assert (Hu : isHold u = false).
    { unfold isHold in *. destruct (kind t), (kind u); simpl in *; congruence. }
    now rewrite Hu.
  - simpl. now rewrite IH.
Qed.

(** Every qualifying tick that sees a positive countdown arms one more
    timeout, whatever is pending already; the countdown itself is left
    as it is. *)
Lemma qualifying_tick_arms_another_timeout rt t hs r :
  pending t rt = true -> kind t = DetectInterval ->
  qualifies (get hs (currentSide (st rt))) = true ->
  holdCountdown (st rt) = Some r -> 0 < r ->
  pendingDecrements (step (Fire t (Some hs)) rt) = S (pendingDecrements rt) /\
  holdCountdown (st (step (Fire t (Some hs)) rt)) = Some r.
Proof.
  intros Hp Hk Q Hc Hr.
  assert (Hr' : (0 <? r) = true) by now apply Z.ltb_lt.
  unfold step. rewrite pendingDecrements_commit.
  rewrite (same_holdCountdown _ _ (sameHold_commit _ _)).
  simpl. rewrite Hp. unfold callback. cbv zeta. rewrite Hk. simpl.
  unfold detectArms, detectSet. cbv zeta. rewrite Q, Hc, Hr'. simpl.
  split; [| exact Hc].
  unfold pendingDecrements. simpl.
  rewrite !filter_app, !length_app.
  rewrite filter_removeTimer_other by (unfold isHold; now rewrite Hk).
  unfold isHold at 2 3. simpl. lia.
Qed.

(** Neither button cancels a pending decrement. *)
Lemma clicks_keep_pending_decrements a rt :
  a = ClickStart \/ a = ClickRetake ->
  pendingDecrements (step a rt) = pendingDecrements rt.
Proof.
  intros [-> | ->]; unfold step; rewrite pendingDecrements_commit; simpl.
  - now destruct (showStartModal (st rt) && negb (isLoading (st rt))).
  - now destruct (showCompletionModal (st rt)).
Qed.

(** A decrement that runs after a reset turns null into -1. *)
Lemma decrement_after_reset s :
  holdCountdown (decrementHold (resetChallenge s)) = Some (-1).
Proof. reflexivity. Qed.

(** C1 at the failing input: both arms qualify in every frame from the
    start.  The ticks from 0.2 s to 1.1 s each arm a timeout, so 10 are
    pending at 1.199 s; they run 100 ms apart: the countdown is 10 at
    1.199 s, 8 at 1.3 s and 0 at 2.1 s, and the side switches at 2.2 s. *)
Theorem overlapping_timeouts_count_down_faster :
  observe (fun r => (holdCountdown (st r), pendingDecrements r)) (heldSession 1199)
    = Some (Some 10, 10%nat) /\
  observe (fun r => (holdCountdown (st r), decrements r)) (heldSession 1300)
    = Some (Some 8, [1300; 1200]) /\
  observe (fun r => (holdCountdown (st r), currentSide (st r), rev (decrements r)))
          (heldSession 2100)
    = Some (Some 0, right,
            [1200; 1300; 1400; 1500; 1600; 1700; 1800; 1900; 2000; 2100]) /\
  observe (fun r => (holdCountdown (st r), currentSide (st r))) (heldSession 2200)
    = Some (None, left).
Proof. repeat split; vm_compute; reflexivity. Qed.

(** C3 at the failing input: the session of [lapseFeed].  At 60.45 s the
    completion modal is up and 5 decrements are pending; Retake returns
    to the start modal with the countdown null and leaves them pending;
    at 61 s they have run and the countdown is -5. *)
Theorem stale_timeouts_run_after_reset :
  observe (fun r => (showCompletionModal (st r), holdCountdown (st r),
                     pendingDecrements r)) (lapsedSession 60450)
    = Some (true, Some 6, 5%nat) /\
  observe (fun r => (showStartModal (st r), challengeStarted (st r),
                     holdCountdown (st r), pendingDecrements r)) retaken
    = Some (true, false, None, 5%nat) /\
  observe (fun r => (showStartModal (st r), challengeStarted (st r),
                     holdCountdown (st r), pendingDecrements r)) retakenSession
    = Some (true, false, Some (-5), 0%nat).
Proof. repeat split; vm_compute; reflexivity. Qed.

End SessionFacts.

(* ------------------------------------------------------------------ *)
(** ** More about the frame classification *)
(* ------------------------------------------------------------------ *)

Module GeometryMore.

Import Geometry Scenarios GeometryFacts.
Local Open Scope R_scope.

(** *** Degrees *)

Lemma deg_pos : 0 < 180 / PI.
Proof. pose proof PI_RGT_0. apply Rdiv_lt_0_compat; lra. Qed.

Lemma deg_PI : PI * (180 / PI) = 180.
Proof. pose proof PI_RGT_0. field. lra. Qed.

Lemma deg_lt (r r' : R) : r < r' -> r * (180 / PI) < r' * (180 / PI).
Proof. intros H. apply Rmult_lt_compat_r; [exact deg_pos | exact H]. Qed.

Lemma deg_le (r r' : R) : r <= r' -> r * (180 / PI) <= r' * (180 / PI).
Proof. intros H. apply Rmult_le_compat_r; [left; exact deg_pos | exact H]. Qed.

Lemma deg_atan_bound (x : R) : -90 < atan x * (180 / PI) < 90.
Proof.
  pose proof (atan_bound x) as [Hlo Hhi].
  pose proof deg_PI as E.
  apply deg_lt in Hlo. apply deg_lt in Hhi.
  replace (- PI / 2 * (180 / PI)) with (- (PI * (180 / PI)) / 2) in Hlo
    by (unfold Rdiv; ring).
  replace (PI / 2 * (180 / PI)) with (PI * (180 / PI) / 2) in Hhi
    by (unfold Rdiv; ring).
  rewrite E in Hlo, Hhi. lra.
Qed.

Lemma Rabs_le_between (x a : R) : Rabs x <= a <-> - a <= x <= a.
Proof.
  split; [| apply Rabs_le].
  unfold Rabs. destruct (Rcase_abs x); lra.
Qed.

Lemma atan_pos_inv (x : R) : 0 < atan x -> 0 < x.
Proof.
  intros H. destruct (Rlt_dec 0 x) as [Hx | Hx]; [exact Hx |].
  assert (Hx' : x <= 0) by lra.
  pose proof (atan_nonpos x Hx'). lra.
Qed.

Lemma div_pos_inv (y x : R) : 0 < x -> 0 < y / x -> 0 < y.
Proof.
  intros Hx H.
  assert (E : y = y / x * x) by (field; lra).
  rewrite E. apply Rmult_lt_0_compat; assumption.
Qed.

(** *** The angle test, by side *)

Lemma angle_of_right (sh w : Keypoint) :
  0 < kx w - kx sh ->
  angle sh w = atan (rise sh w / (kx w - kx sh)) * (180 / PI).
Proof. intros H. unfold angle, rise. cbv zeta. now rewrite Math_atan2_right. Qed.

Lemma angle_of_up_left (sh w : Keypoint) :
  kx w - kx sh < 0 -> 0 <= rise sh w ->
  angle sh w = 180 - atan (rise sh w / - (kx w - kx sh)) * (180 / PI).
Proof.
  intros Hx Hy. unfold angle, rise in *. cbv zeta.
  rewrite Math_atan2_up_left by assumption.
  replace ((ky sh - ky w) / - (kx w - kx sh))
    with (- ((ky sh - ky w) / (kx w - kx sh))) by (field; lra).
  rewrite atan_opp, Rmult_plus_distr_r, deg_PI. ring.
Qed.

(** The angle in the five cases of [Math_atan2]. *)
Lemma angle_cases (sh w : Keypoint) :
  let dx := kx w - kx sh in
  let dy := rise sh w in
  (0 < dx /\ angle sh w = atan (dy / dx) * (180 / PI)) \/
  (dx < 0 /\ 0 <= dy /\ angle sh w = 180 - atan (dy / - dx) * (180 / PI)) \/
  (dx < 0 /\ dy < 0 /\ angle sh w < 0) \/
  (dx = 0 /\ 0 < dy /\ angle sh w = 90) \/
  (dx = 0 /\ dy <= 0 /\ angle sh w <= 0).
Proof.
  cbv zeta.
  destruct (Rlt_dec 0 (kx w - kx sh)) as [Hx | Hx].
  { left. split; [exact Hx | now apply angle_of_right]. }
  destruct (Rlt_dec (kx w - kx sh) 0) as [Hx' | Hx'].
  - destruct (Rle_dec 0 (rise sh w)) as [Hy | Hy].
    + right. left. split; [exact Hx' |]. split; [exact Hy |].
      now apply angle_of_up_left.
    + right. right. left. split; [exact Hx' |]. split; [lra |].
      unfold angle, rise in *. cbv zeta. unfold Math_atan2.
      destruct (Rlt_dec 0 (kx w - kx sh)); [lra |].
      destruct (Rlt_dec (kx w - kx sh) 0); [| lra].
      destruct (Rle_dec 0 (ky sh - ky w)); [lra |].
      pose proof (atan_bound ((ky sh - ky w) / (kx w - kx sh))) as [_ Hb].
      pose proof PI_RGT_0.
      assert (Hneg : atan ((ky sh - ky w) / (kx w - kx sh)) - PI < 0) by lra.
      apply deg_lt in Hneg. lra.
  - assert (E0 : kx w - kx sh = 0) by lra.
    unfold angle, rise in *. cbv zeta. unfold Math_atan2.
    destruct (Rlt_dec 0 (kx w - kx sh)); [lra |].
    destruct (Rlt_dec (kx w - kx sh) 0); [lra |].
    pose proof PI_RGT_0. pose proof deg_PI as EP.
    destruct (Rlt_dec 0 (ky sh - ky w)) as [Hy | Hy].
    + right. right. right. left. split; [exact E0 |]. split; [exact Hy |].
      replace (PI / 2 * (180 / PI)) with (PI * (180 / PI) / 2)
        by (unfold Rdiv; ring).
      rewrite EP. lra.
    + right. right. right. right. split; [exact E0 |]. split; [lra |].
      destruct (Rlt_dec (ky sh - ky w) 0).
      * replace (- (PI / 2) * (180 / PI)) with (- (PI * (180 / PI)) / 2)
          by (unfold Rdiv; ring).
        rewrite EP. lra.
      * lra.
Qed.

(** The test of line 218 passes exactly when the wrist is out on the
    side's own side and the arm is raised between 30 and 60 degrees
    above the horizontal. *)
Lemma angleOk_iff (s : Side) (sh w : Keypoint) :
  angleOk s sh w = true <->
  0 < outward s sh w /\
  30 <= atan (rise sh w / outward s sh w) * (180 / PI) <= 60.
Proof.
  unfold angleOk, angleDiff, angleTolerance. rewrite Rleb_true, Rabs_le_between.
  pose proof (angle_cases sh w) as C. cbv zeta in C.
  pose proof (deg_atan_bound (rise sh w / (kx w - kx sh))) as B1.
  pose proof (deg_atan_bound (rise sh w / - (kx w - kx sh))) as B2.
  destruct (Rlt_dec (angle sh w) 0) as [Hneg | Hpos].
  - (* a negative angle is normalized into (180, 360) *)
    rewrite (normalizedAngle_neg _ _ Hneg).
    pose proof (angle_range sh w) as [Hlo _].
    split.
    + intros H. destruct s; simpl in H; lra.
    + intros [Hout H]. exfalso.
      destruct C as [(Hx & E) | [(Hx & Hy & E) | [(Hx & Hy & _) | [(Hx & Hy & E) | (Hx & Hy & _)]]]];
        destruct s; unfold outward in *; try lra.
      * (* left of the shoulder, below it *)
        assert (Hq : 0 < atan (rise sh w / - (kx w - kx sh))).
        { pose proof deg_pos.
          destruct (Rlt_dec 0 (atan (rise sh w / - (kx w - kx sh)))); [assumption |].
          assert (atan (rise sh w / - (kx w - kx sh)) * (180 / PI) <= 0 * (180 / PI))
            by (apply deg_le; lra).
          lra. }
        apply atan_pos_inv in Hq. apply div_pos_inv in Hq; lra.
  - rewrite normalizedAngle_nonneg by lra.
    destruct C as [(Hx & E) | [(Hx & Hy & E) | [(Hx & Hy & E) | [(Hx & Hy & E) | (Hx & Hy & E)]]]];
      destruct s; unfold outward, targetAngleForSide in *; rewrite ?E;
      try (split; [intros H | intros [Hout H]]; lra).
Qed.

Lemma outward_mirror (s : Side) (sh w : Keypoint) :
  outward (otherSide s) sh (mirrorAbout sh w) = outward s sh w.
Proof. destruct s; unfold outward, mirrorAbout; simpl; ring. Qed.

(** *** The extras *)

(** X1.  Mirror symmetry: reflecting the wrist in the vertical line
    through the shoulder and testing it as the other side gives the same
    verdict of the angle test. *)
Theorem angle_test_mirror_symmetric (s : Side) (sh w : Keypoint) :
  angleOk (otherSide s) sh (mirrorAbout sh w) = angleOk s sh w.
Proof.
  apply eq_true_iff_eq.
  rewrite !angleOk_iff, outward_mirror.
  unfold rise, mirrorAbout. simpl. reflexivity.
Qed.

(** X2.  The overlay and the test agree: when the video has a positive
    height and the deciding wrist of a side lies on the centre of the
    target circle drawn for that side's shoulder, the side is detected
    and its [correctAngle] flag is set. *)
Theorem wrist_on_drawn_target_passes
    (f : Frame) (s : Side) (sh w : Keypoint) (h : HandPrediction) :
  wf_frame f ->
  0 < videoHeight f ->
  shoulderOf (posePredictions f) s = Some sh ->
  drawsTarget sh = true ->
  lastOfSide s (handPredictions f) = Some h ->
  nth_error (landmarks h) 0 = Some w ->
  kx w = targetX (videoHeight f) (Side_eqb s left) sh ->
  ky w = targetY (videoHeight f) sh ->
  exists hs, newHandStates f = Some hs /\
             detected (get hs s) = true /\
             correctAngle (get hs s) = true.
Proof.
  intros Hwf HH Hsh Hdraw Hlast Hw Hx Hy.
  destruct (newHandStates_side f s Hwf) as (hs & E & Hget).
  exists hs. split; [exact E |].
  rewrite Hget, Hsh, Hlast, (statusFor_some _ _ _ _ _ Hw).
  unfold drawsTarget in Hdraw. rewrite Hdraw. cbn [detected correctAngle].
  split; [reflexivity |].
  change (angleOk s sh w = true). apply angleOk_iff.
  assert (Ho : outward s sh w = videoHeight f * (3 / 10)).
  { unfold outward. rewrite Hx. unfold targetX. destruct s; simpl; ring. }
  assert (Hr : rise sh w = videoHeight f * (3 / 10)).
  { unfold rise. rewrite Hy. unfold targetY. ring. }
  rewrite Ho, Hr.
  replace (videoHeight f * (3 / 10) / (videoHeight f * (3 / 10))) with 1
    by (field; lra).
  rewrite atan_1.
  replace (PI / 4 * (180 / PI)) with (PI * (180 / PI) / 4) by (unfold Rdiv; ring).
  rewrite deg_PI. lra.
Qed.

Lemma wf_targetFrame : wf_frame targetFrame.
Proof. split; repeat constructor; simpl; lia. Qed.

Lemma wrist_on_drawn_target_passes_witness :
  exists hs, newHandStates targetFrame = Some hs /\
             detected (get hs right) = true /\
             correctAngle (get hs right) = true.
Proof.
  apply (wrist_on_drawn_target_passes targetFrame right rightShoulder targetWrist
           (mkHand "Right" [targetWrist])).
  - exact wf_targetFrame.
  - simpl. lra.
  - reflexivity.
  - apply Rltb_true. simpl. lra.
  - reflexivity.
  - reflexivity.
  - simpl. lra.
  - simpl. unfold targetY. simpl. lra.
Defined.

(** X3.  [correctAngle] is set only for a raised, outward arm: when the
    flag of a side is true, that side has a shoulder and a deciding hand
    whose wrist is strictly above the shoulder and strictly on the
    side's own side of it (to the right for the right side, to the left
    for the left side, in image coordinates). *)
Theorem correct_angle_needs_raised_outward_arm (f : Frame) (s : Side) :
  wf_frame f ->
  exists hs, newHandStates f = Some hs /\
    (correctAngle (get hs s) = true ->
     exists sh h w,
       shoulderOf (posePredictions f) s = Some sh /\
       lastOfSide s (handPredictions f) = Some h /\
       nth_error (landmarks h) 0 = Some w /\
       ky w < ky sh /\
       match s with
       | right => kx sh < kx w
       | left => kx w < kx sh
       end).
Proof.
  intros Hwf.
  destruct (newHandStates_side f s Hwf) as (hs & E & Hget).
  exists hs. split; [exact E |].
  rewrite Hget. unfold statusFor.
  destruct (lastOfSide s (handPredictions f)) as [h |] eqn:El; [| discriminate].
  destruct (shoulderOf (posePredictions f) s) as [sh |] eqn:Es;
    [| destruct (nth_error (landmarks h) 0); discriminate].
  destruct (nth_error (landmarks h) 0) as [w |] eqn:Ew; [| discriminate].
  destruct (Rltb (3 / 10) (score sh)); [| discriminate].
  cbn [correctAngle]. intros Hok.
  change (angleOk s sh w = true) in Hok.
  apply angleOk_iff in Hok as (Hout & Hlo & _).
  exists sh, h, w.
  split; [reflexivity |]. split; [reflexivity |]. split; [exact Ew |].
  split.
  - assert (Hq : 0 < atan (rise sh w / outward s sh w)).
    { pose proof deg_pos.
      destruct (Rlt_dec 0 (atan (rise sh w / outward s sh w))); [assumption |].
      assert (atan (rise sh w / outward s sh w) * (180 / PI) <= 0 * (180 / PI))
        by (apply deg_le; lra).
      lra. }
    apply atan_pos_inv in Hq. apply div_pos_inv in Hq; [| exact Hout].
    unfold rise in Hq. lra.
  - destruct s; unfold outward in Hout; lra.
Qed.

Lemma correct_angle_needs_raised_outward_arm_witness :
  exists hs, newHandStates exampleFrame = Some hs /\
    (correctAngle (get hs left) = true ->
     exists sh h w,
       shoulderOf (posePredictions exampleFrame) left = Some sh /\
       lastOfSide left (handPredictions exampleFrame) = Some h /\
       nth_error (landmarks h) 0 = Some w /\
       ky w < ky sh /\ kx w < kx sh).
Proof.
  exact (correct_angle_needs_raised_outward_arm exampleFrame left wf_exampleFrame).
Defined.

Lemma Math_atan2_scale (c y x : R) :
  0 < c -> Math_atan2 (c * y) (c * x) = Math_atan2 y x.
Proof.
  intros Hc. unfold Math_atan2.
  assert (Hxs : 0 < c * x <-> 0 < x) by (split; intros; nra).
  assert (Hxn : c * x < 0 <-> x < 0) by (split; intros; nra).
  assert (Hys : 0 < c * y <-> 0 < y) by (split; intros; nra).
  assert (Hyn : c * y < 0 <-> y < 0) by (split; intros; nra).
  assert (Hy0 : 0 <= c * y <-> 0 <= y) by (split; intros; nra).
  destruct (Rlt_dec 0 (c * x)) as [A | A], (Rlt_dec 0 x) as [B | B];
    try (exfalso; tauto).
  - f_equal. field. lra.
  - destruct (Rlt_dec (c * x) 0) as [A' | A'], (Rlt_dec x 0) as [B' | B'];
      try (exfalso; tauto).
    + destruct (Rle_dec 0 (c * y)) as [P | P], (Rle_dec 0 y) as [Q | Q];
        try (exfalso; tauto);
        do 2 f_equal; field; lra.
    + destruct (Rlt_dec 0 (c * y)) as [P | P], (Rlt_dec 0 y) as [Q | Q];
        try (exfalso; tauto); [reflexivity |].
      destruct (Rlt_dec (c * y) 0) as [P' | P'], (Rlt_dec y 0) as [Q' | Q'];
        try (exfalso; tauto); reflexivity.
Qed.

(** X4.  The angle depends only on the direction from shoulder to wrist:
    moving both points by the same offset, or moving the wrist along the
    same ray (an arm seen larger or smaller), changes neither the
    normalized angle nor the verdict of the angle test. *)
Theorem angle_depends_on_direction_only (sh w sh' w' : Keypoint) (c : R) :
  0 < c ->
  kx w' - kx sh' = c * (kx w - kx sh) ->
  ky sh' - ky w' = c * (ky sh - ky w) ->
  normalizedAngle sh' w' = normalizedAngle sh w /\
  (forall s, angleOk s sh' w' = angleOk s sh w).
Proof.
  intros Hc Hx Hy.
  assert (Ea : angle sh' w' = angle sh w).
  { unfold angle. cbv zeta. rewrite Hx, Hy. now rewrite Math_atan2_scale. }
  assert (En : normalizedAngle sh' w' = normalizedAngle sh w).
  { unfold normalizedAngle. cbv zeta. now rewrite Ea. }
  split; [exact En |].
  intros s. unfold angleOk, angleDiff. now rewrite En.
Qed.

Lemma angle_depends_on_direction_only_witness :
  normalizedAngle shiftedShoulder farWrist = normalizedAngle rightShoulder rightWrist.
Proof.
  apply (angle_depends_on_direction_only rightShoulder rightWrist
           shiftedShoulder farWrist 2).
  - lra.
  - simpl. lra.
  - simpl. lra.
Defined.

Lemma sideOf_wristOnly (h : HandPrediction) : sideOf (wristOnly h) = sideOf h.
Proof. reflexivity. Qed.

Lemma lastOfSide_wristOnly (s : Side) (l : list HandPrediction) :
  lastOfSide s (map wristOnly l) = option_map wristOnly (lastOfSide s l).
Proof.
  induction l as [| h l IH] using rev_ind; [reflexivity |].
  rewrite map_app. simpl map. rewrite !lastOfSide_snoc, sideOf_wristOnly, IH.
  now destruct (Side_eqb (sideOf h) s).
Qed.

Lemma statusFor_wristOnly lineY s shoulder (o : option HandPrediction) :
  statusFor lineY s shoulder (option_map wristOnly o) = statusFor lineY s shoulder o.
Proof.
  destruct o as [h |]; [| reflexivity]. simpl.
  unfold wristOnly. cbn [landmarks].
  destruct (landmarks h) as [| w ws]; reflexivity.
Qed.

(** X5.  What the classification reads.  Of each hand it reads only the
    handedness label and the position of the wrist: dropping all other
    landmarks and every landmark score changes nothing.  Of the poses it
    reads only joints 5 and 6 of the first one: frames that agree on
    these two shoulders, on the video height and on the hands are
    classified alike. *)
Theorem classification_reads_shoulders_and_wrists (f : Frame) :
  wf_frame f ->
  newHandStates (withHands f (map wristOnly (handPredictions f))) = newHandStates f /\
  (forall g, wf_frame g ->
             videoHeight g = videoHeight f ->
             handPredictions g = handPredictions f ->
             (forall s, shoulderOf (posePredictions g) s = shoulderOf (posePredictions f) s) ->
             newHandStates g = newHandStates f).
Proof.
  intros Hwf. split.
  - assert (Hwf' : wf_frame (withHands f (map wristOnly (handPredictions f)))).
    { destruct Hwf as [Hp Hh]. split; [exact Hp |]. simpl.
      apply Forall_map. apply (Forall_impl _ (P := wf_hand)); [| exact Hh].
      intros h Hw. unfold wf_hand, wristOnly in *. simpl.
      destruct (landmarks h); simpl in *; lia. }
    rewrite (newHandStates_wf _ Hwf'), (newHandStates_wf _ Hwf).
    simpl. unfold shoulderLineY. simpl.
    now rewrite !lastOfSide_wristOnly, !statusFor_wristOnly.
  - intros g Hg Hv Hh Hs.
    rewrite (newHandStates_wf _ Hg), (newHandStates_wf _ Hwf).
    unfold shoulderLineY. now rewrite Hv, Hh, !Hs.
Qed.

Lemma classification_reads_shoulders_and_wrists_witness :
  newHandStates (withHands exampleFrame (map wristOnly (handPredictions exampleFrame)))
  = newHandStates exampleFrame.
Proof.
  exact (proj1 (classification_reads_shoulders_and_wrists exampleFrame wf_exampleFrame)).
Defined.

(** X6.  [detected] is set exactly for the sides that have a hand in the
    frame, and the two geometric flags are never set on a side that is
    not detected. *)
Theorem detected_iff_hand_present (f : Frame) :
  wf_frame f ->
  exists hs, newHandStates f = Some hs /\
    forall s,
      (detected (get hs s) = true <->
       exists h, In h (handPredictions f) /\ sideOf h = s) /\
      (correctAngle (get hs s) = true -> detected (get hs s) = true) /\
      (shoulderTouching (get hs s) = true -> detected (get hs s) = true).
Proof.
  intros Hwf.
  pose proof (newHandStates_wf f Hwf) as E.
  eexists. split; [exact E |].
  intros s.
  match goal with
  | |- context [get ?H s] =>
      assert (G : get H s = statusFor (shoulderLineY f) s
                              (shoulderOf (posePredictions f) s)
                              (lastOfSide s (handPredictions f)))
        by (destruct s; reflexivity)
  end.
  rewrite G. clear G E.
  destruct (lastOfSide s (handPredictions f)) as [h |] eqn:El.
  - assert (D : detected (statusFor (shoulderLineY f) s
                            (shoulderOf (posePredictions f) s) (Some h)) = true).
    { unfold statusFor.
      destruct (shoulderOf (posePredictions f) s) as [sh |];
        destruct (nth_error (landmarks h) 0); try reflexivity.
      now destruct (Rltb (3 / 10) (score sh)). }
    rewrite D. split; [| split; reflexivity].
    split; [| reflexivity]. intros _. exists h. split.
    + now apply (lastOfSide_In s).
    + now apply (lastOfSide_side s (handPredictions f)).
  - simpl. split; [| split; discriminate].
    split; [discriminate |].
    intros (h & Hin & Hs). exfalso.
    apply (proj1 (lastOfSide_None s (handPredictions f)) El h Hin Hs).
Qed.

Lemma detected_iff_hand_present_witness :
  exists hs, newHandStates emptyFrame = Some hs /\
    forall s,
      (detected (get hs s) = true <->
       exists h, In h (handPredictions emptyFrame) /\ sideOf h = s) /\
      (correctAngle (get hs s) = true -> detected (get hs s) = true) /\
      (shoulderTouching (get hs s) = true -> detected (get hs s) = true).
Proof.
  apply (detected_iff_hand_present emptyFrame).
  split; repeat constructor; simpl; lia.
Defined.

End GeometryMore.

(* ------------------------------------------------------------------ *)
(** ** More about sessions: timers, modals and messages *)
(* ------------------------------------------------------------------ *)

Module SessionMore.

Import Geometry Component Loop Scenarios GeometryFacts ComponentFacts SessionFacts.
Local Open Scope Z_scope.

(** *** Counting timers *)

Lemma TimerKind_eqb_eq a b : TimerKind_eqb a b = true <-> a = b.
Proof. destruct a, b; simpl; split; intros; congruence. Qed.

Lemma TimerKind_eqb_refl a : TimerKind_eqb a a = true.
Proof. now destruct a. Qed.

Lemma countKind_app k a b :
  countKind k (a ++ b) = (countKind k a + countKind k b)%nat.
Proof. unfold countKind. now rewrite filter_app, length_app. Qed.

Lemma countKind_arm k k' d rt :
  countKind k (timers (arm k' d rt)) =
  (countKind k (timers rt) + if TimerKind_eqb k' k then 1 else 0)%nat.
Proof.
  unfold arm. simpl. rewrite countKind_app. unfold countKind at 2. simpl.
  now destruct (TimerKind_eqb k' k).
Qed.

Lemma countKind_clear k k' rt :
  countKind k (timers (clear k' rt)) =
  if TimerKind_eqb k k' then 0%nat else countKind k (timers rt).
Proof.
  unfold clear, countKind. simpl.
  induction (timers rt) as [| t ts IH]; simpl.
  - now destruct (TimerKind_eqb k k').
  - destruct (TimerKind_eqb (kind t) k') eqn:E1; simpl.
    + rewrite IH. destruct (TimerKind_eqb k k') eqn:E2; [reflexivity |].
      destruct (TimerKind_eqb (kind t) k) eqn:E3; [| reflexivity].
      apply TimerKind_eqb_eq in E1, E3. subst.
      now rewrite TimerKind_eqb_refl in E2.
    + destruct (TimerKind_eqb (kind t) k) eqn:E3; simpl; rewrite IH.
      * destruct (TimerKind_eqb k k') eqn:E2; [| reflexivity].
        apply TimerKind_eqb_eq in E2, E3. subst.
        now rewrite TimerKind_eqb_refl in E1.
      * reflexivity.
Qed.

Lemma Timer_eqb_kind t u : Timer_eqb t u = true -> kind u = kind t.
Proof.
  unfold Timer_eqb. intros H. apply andb_prop in H as [_ H].
  apply TimerKind_eqb_eq in H. congruence.
Qed.

Lemma countKind_removeTimer_same t ts :
  existsb (Timer_eqb t) ts = true ->
  countKind (kind t) ts = S (countKind (kind t) (removeTimer t ts)).
Proof.
  induction ts as [| u r IH]; [discriminate |]. simpl.
  destruct (Timer_eqb t u) eqn:E.
  - intros _. unfold countKind. simpl.
    now rewrite (Timer_eqb_kind _ _ E), TimerKind_eqb_refl.
  - simpl. intros H. unfold countKind in *. simpl.
    destruct (TimerKind_eqb (kind u) (kind t)); simpl; now rewrite (IH H).
Qed.

Lemma countKind_removeTimer_other k t ts :
  k <> kind t -> countKind k (removeTimer t ts) = countKind k ts.
Proof.
  intros Hk. induction ts as [| u r IH]; [reflexivity |]. simpl.
  destruct (Timer_eqb t u) eqn:E.
  - unfold countKind. simpl.
    destruct (TimerKind_eqb (kind u) k) eqn:E'; [| reflexivity].
    apply TimerKind_eqb_eq in E'. apply Timer_eqb_kind in E. congruence.
  - unfold countKind in *. simpl.
    destruct (TimerKind_eqb (kind u) k); simpl; now rewrite IH.
Qed.

(** A callback removes its timer and, for an interval, arms it again:
    the number of intervals of each kind stays the same. *)
Lemma countKind_handle k a rt :
  k <> HoldTimeout ->
  countKind k (timers (handle a rt)) = countKind k (timers rt).
Proof.
  intros Hk. destruct a as [| | | | t input]; simpl.
  - reflexivity.
  - now destruct (showStartModal (st rt) && negb (isLoading (st rt))).
  - now destruct (showCompletionModal (st rt)).
  - now destruct (showCompletionModal (st rt)).
  - unfold pending. destruct (existsb (Timer_eqb t) (timers rt)) eqn:P; [| reflexivity].
    pose proof (countKind_removeTimer_same t (timers rt) P) as Hs.
    unfold callback. cbv zeta.
    destruct (kind t) eqn:K.
    + (* detection tick *)
      assert (C : countKind k (removeTimer t (timers rt) ++ [mkTimer (Z.max (now rt) (due t) + 100) DetectInterval])
                  = countKind k (timers rt)).
      { rewrite countKind_app. unfold countKind at 2. simpl.
        destruct k; simpl; try congruence.
        - rewrite Hs. lia.
        - rewrite countKind_removeTimer_other by congruence. lia. }
      destruct input as [hs |]; simpl; [| exact C].
      destruct (detectArms hs (st rt)); simpl; [| exact C].
      rewrite countKind_app, C. unfold countKind at 2. simpl.
      destruct k; simpl; try congruence; lia.
    + (* session tick *)
      simpl. rewrite countKind_app. unfold countKind at 2. simpl.
      destruct k; simpl; try congruence.
      * rewrite countKind_removeTimer_other by congruence. lia.
      * rewrite Hs. lia.
    + (* hold timeout *)
      simpl. apply countKind_removeTimer_other. congruence.
Qed.

Lemma pending_counts t rt :
  pending t rt = true -> countKind (kind t) (timers rt) <> 0%nat.
Proof.
  intros P. rewrite (countKind_removeTimer_same t (timers rt) P). discriminate.
Qed.

(** *** The interval effects keep their invariant *)

Lemma sessionGuard_deps a b :
  timerDepsSame a b = true -> sessionGuard a = sessionGuard b.
Proof.
  unfold timerDepsSame, sessionGuard. intros H.
  apply andb_prop in H as [H1 H2].
  apply eqb_prop in H1. apply Z.eqb_eq in H2. now rewrite H1, H2.
Qed.

Lemma detectGuard_deps a b :
  detectionDepsSame a b = true -> detectGuard a = detectGuard b.
Proof.
  unfold detectionDepsSame, detectGuard. intros H.
  apply andb_prop in H as [H _]. apply andb_prop in H as [H H3].
  apply andb_prop in H as [H1 _].
  apply eqb_prop in H1, H3. now rewrite H1, H3.
Qed.

Lemma timerEffect_session prev rt :
  intervalInv SessionInterval sessionGuard prev (timers rt) ->
  intervalInv SessionInterval sessionGuard (st rt) (timers (timerEffect prev rt)).
Proof.
  unfold intervalInv, timerEffect. cbv zeta. intros [H1 H2].
  destruct (timerDepsSame prev (st rt)) eqn:D.
  - rewrite <- (sessionGuard_deps _ _ D). auto.
  - destruct (negb (challengeStarted (st rt)) || (timeLeft (st rt) <=? 0)) eqn:G.
    + rewrite countKind_clear. simpl. split; [lia | congruence].
    + rewrite countKind_arm, countKind_clear. simpl. split; [lia |].
      intros _. unfold sessionGuard.
      apply orb_false_elim in G as [G1 G2].
      apply negb_false_iff in G1. now rewrite G1, G2.
Qed.

Lemma timerEffect_detect prev rt :
  countKind DetectInterval (timers (timerEffect prev rt))
  = countKind DetectInterval (timers rt).
Proof.
  unfold timerEffect. cbv zeta.
  destruct (timerDepsSame prev (st rt)); [reflexivity |].
  destruct (negb (challengeStarted (st rt)) || (timeLeft (st rt) <=? 0));
    rewrite ?countKind_arm, countKind_clear; simpl; lia.
Qed.

Lemma detectionEffect_detect prev rt :
  intervalInv DetectInterval detectGuard prev (timers rt) ->
  intervalInv DetectInterval detectGuard (st rt) (timers (detectionEffect prev rt)).
Proof.
  unfold intervalInv, detectionEffect. cbv zeta. intros [H1 H2].
  destruct (detectionDepsSame prev (st rt)) eqn:D.
  - rewrite <- (detectGuard_deps _ _ D). auto.
  - destruct (isLoading (st rt) || negb (challengeStarted (st rt))) eqn:G.
    + rewrite countKind_clear. simpl. split; [lia | congruence].
    + rewrite countKind_arm, countKind_clear. simpl. split; [lia |].
      intros _. unfold detectGuard.
      apply orb_false_elim in G as [G1 G2].
      apply negb_false_iff in G2. now rewrite G1, G2.
Qed.

Lemma detectionEffect_session prev rt :
  countKind SessionInterval (timers (detectionEffect prev rt))
  = countKind SessionInterval (timers rt).
Proof.
  unfold detectionEffect. cbv zeta.
  destruct (detectionDepsSame prev (st rt)); [reflexivity |].
  destruct (isLoading (st rt) || negb (challengeStarted (st rt)));
    rewrite ?countKind_arm, countKind_clear; simpl; lia.
Qed.

Lemma timers_renderPass prev rt :
  timers (renderPass prev rt) = timers (detectionEffect prev (timerEffect prev rt)).
Proof.
  unfold renderPass. cbv zeta. now destruct (completionDepsSame prev (st rt)).
Qed.

Lemma renderPass_session prev rt :
  intervalInv SessionInterval sessionGuard prev (timers rt) ->
  intervalInv SessionInterval sessionGuard (st rt) (timers (renderPass prev rt)).
Proof.
  intros H. apply timerEffect_session in H.
  rewrite timers_renderPass. unfold intervalInv in *.
  now rewrite detectionEffect_session.
Qed.

Lemma renderPass_detect prev rt :
  intervalInv DetectInterval detectGuard prev (timers rt) ->
  intervalInv DetectInterval detectGuard (st rt) (timers (renderPass prev rt)).
Proof.
  intros H. rewrite timers_renderPass.
  pose proof (detectionEffect_detect prev (timerEffect prev rt)) as D.
  rewrite st_timerEffect in D. apply D.
  unfold intervalInv in *. now rewrite timerEffect_detect.
Qed.

Lemma commit_session prev rt :
  intervalInv SessionInterval sessionGuard prev (timers rt) ->
  intervalInv SessionInterval sessionGuard (st (commit prev rt)) (timers (commit prev rt)).
Proof.
  intros H. rewrite (proj1 (commit_settled prev rt)).
  unfold commit. now apply renderPass_session, renderPass_session.
Qed.

Lemma commit_detect prev rt :
  intervalInv DetectInterval detectGuard prev (timers rt) ->
  intervalInv DetectInterval detectGuard (st (commit prev rt)) (timers (commit prev rt)).
Proof.
  intros H. rewrite (proj1 (commit_settled prev rt)).
  unfold commit. now apply renderPass_detect, renderPass_detect.
Qed.

(** The state after the renders. *)
Lemma st_step a rt :
  st (step a rt) =
  if completionDepsSame (st rt) (st (handle a rt)) then st (handle a rt)
  else timerCompletion (st (handle a rt)).
Proof.
  unfold step. rewrite (proj1 (commit_settled _ _)).
  unfold renderPass. cbv zeta.
  destruct (completionDepsSame (st rt) (st (handle a rt))); [| reflexivity].
  now rewrite st_detectionEffect, st_timerEffect.
Qed.

(** *** What a handler does to the state *)

Lemma handle_cases a rt :
  let s := st rt in
  let s' := st (handle a rt) in
  s' = s \/
  (a = ModelsLoaded /\ s' = setIsLoading false s) \/
  (a = ClickStart /\ startButtonRendered s = true /\ s' = startChallenge s) \/
  (a = ClickRetake /\ completionButtonsRendered s = true /\ s' = resetChallenge s) \/
  (exists t hs, a = Fire t (Some hs) /\ pending t rt = true /\
                kind t = DetectInterval /\ s' = detectSet hs s) \/
  (exists t input, a = Fire t input /\ pending t rt = true /\
                   kind t = HoldTimeout /\ s' = decrementHold s) \/
  (exists t input, a = Fire t input /\ pending t rt = true /\
                   kind t = SessionInterval /\ s' = decrementTime s).
Proof.
  cbv zeta. destruct a as [| | | | t input]; simpl.
  - right. left. auto.
  - unfold startButtonRendered.
    destruct (showStartModal (st rt) && negb (isLoading (st rt))) eqn:E; simpl; auto.
    right. right. left. auto.
  - unfold completionButtonsRendered.
    destruct (showCompletionModal (st rt)) eqn:E; simpl; auto.
    right. right. right. left. auto.
  - destruct (showCompletionModal (st rt)); simpl; auto.
  - destruct (pending t rt) eqn:P; [| auto].
    unfold callback. cbv zeta.
    destruct (kind t) eqn:K; simpl.
    + destruct input as [hs |]; simpl; [| auto].
      right. right. right. right. left. exists t, hs. auto.
    + right. right. right. right. right. right. exists t, input. auto.
    + right. right. right. right. right. left. exists t, input. auto.
Qed.

Lemma detectSet_keeps hs s :
  timeLeft (detectSet hs s) = timeLeft s /\
  challengeStarted (detectSet hs s) = challengeStarted s /\
  showStartModal (detectSet hs s) = showStartModal s /\
  showCompletionModal (detectSet hs s) = showCompletionModal s /\
  isLoading (detectSet hs s) = isLoading s.
Proof.
  unfold detectSet. cbv zeta.
  destruct (qualifies (get hs (currentSide s))); [| now repeat split].
  destruct (holdCountdown s) as [c |]; [| now repeat split].
  destruct (0 <? c); [now repeat split |].
  destruct (currentSide s); now repeat split.
Qed.

Lemma holdCountdown_detectSet hs s :
  holdCountdown (detectSet hs s) = None \/
  holdCountdown (detectSet hs s) = Some holdDuration \/
  holdCountdown (detectSet hs s) = holdCountdown s.
Proof.
  unfold detectSet. cbv zeta.
  destruct (qualifies (get hs (currentSide s))); [| now left].
  destruct (holdCountdown s) as [c |] eqn:E; [| right; now left].
  destruct (0 <? c); [right; right; now rewrite <- E |].
  destruct (currentSide s); [| now left].
  right. right. now rewrite <- E.
Qed.

Lemma running_timerCompletion s :
  challengeStarted (timerCompletion s) = true -> 0 < timeLeft (timerCompletion s).
Proof.
  unfold timerCompletion.
  destruct (timeLeft s <=? 0) eqn:T; simpl.
  - destruct (challengeStarted s) eqn:C; [| now rewrite C].
    destruct (isComplete s); simpl; discriminate.
  - intros _. apply Z.leb_gt. exact T.
Qed.

Lemma completionDepsSame_fields a b :
  completionDepsSame a b = true ->
  timeLeft a = timeLeft b /\ challengeStarted a = challengeStarted b /\
  isComplete a = isComplete b.
Proof.
  unfold completionDepsSame. intros H.
  apply andb_prop in H as [H H3]. apply andb_prop in H as [H1 H2].
  apply Z.eqb_eq in H1. apply eqb_prop in H2, H3. auto.
Qed.

(** Every action keeps the invariant. *)
Lemma sound_step a rt : sound rt -> sound (step a rt).
Proof.
  intros [Hses Hdet Htime Hrun Hhold Hgate Hmodal].
  pose proof (handle_cases a rt) as HC. cbv zeta in HC.
  pose proof (sameHold_commit (st rt) (handle a rt)) as SH.
  fold (step a rt) in SH.
  pose proof (modalGate_handle a rt Hgate) as Hgate'.
  assert (Htime' : 0 <= timeLeft (st (handle a rt)) <= 60).
  { destruct HC as [E | [(_ & E) | [(_ & _ & E) | [(_ & _ & E) | [(t & hs & _ & _ & _ & E)
      | [(t & i & _ & _ & _ & E) | (t & i & _ & P & K & E)]]]]]]; rewrite E; simpl; try lia.
    - now rewrite (proj1 (detectSet_keeps hs (st rt))).
    - destruct Hses as [_ G]. pose proof (pending_counts t rt P) as N.
      rewrite K in N. specialize (G N). unfold sessionGuard in G.
      apply andb_prop in G as [_ G]. apply negb_true_iff, Z.leb_gt in G. lia. }
  split.
  - apply commit_session. destruct Hses as [H1 H2].
    unfold intervalInv. rewrite countKind_handle by discriminate. auto.
  - apply commit_detect. destruct Hdet as [H1 H2].
    unfold intervalInv. rewrite countKind_handle by discriminate. auto.
  - now rewrite (same_timeLeft _ _ SH).
  - rewrite st_step.
    destruct (completionDepsSame (st rt) (st (handle a rt))) eqn:D.
    + apply completionDepsSame_fields in D as (D1 & D2 & _).
      rewrite <- D1, <- D2. exact Hrun.
    + apply running_timerCompletion.
  - intros c. rewrite (same_holdCountdown _ _ SH).
    destruct HC as [E | [(_ & E) | [(_ & _ & E) | [(_ & _ & E) | [(t & hs & _ & _ & _ & E)
      | [(t & i & _ & _ & _ & E) | (t & i & _ & _ & _ & E)]]]]]]; rewrite E; simpl;
      try discriminate; try apply Hhold.
    + destruct (holdCountdown_detectSet hs (st rt)) as [-> | [-> | ->]];
        [discriminate | intros [= <-]; lia | apply Hhold].
    + intros [= <-]. destruct (holdCountdown (st rt)) as [c0 |] eqn:E0.
      * specialize (Hhold c0 eq_refl). lia.
      * unfold holdDuration. lia.
  - rewrite st_step.
    destruct (completionDepsSame (st rt) (st (handle a rt)));
      [exact Hgate' | now apply modalGate_timerCompletion].
  - assert (Hmodal' : showCompletionModal (st (handle a rt)) = true ->
                      challengeStarted (st (handle a rt)) = false /\
                      showStartModal (st (handle a rt)) = false).
    { destruct HC as [E | [(_ & E) | [(_ & B & E) | [(_ & _ & E) | [(t & hs & _ & _ & _ & E)
        | [(t & i & _ & _ & _ & E) | (t & i & _ & _ & _ & E)]]]]]]; rewrite E; simpl;
        try exact Hmodal; try discriminate.
      - intros M. destruct (Hmodal M) as [_ M'].
        unfold startButtonRendered in B. rewrite M' in B. discriminate.
      - destruct (detectSet_keeps hs (st rt)) as (_ & -> & -> & -> & _). exact Hmodal. }
    rewrite st_step.
    destruct (completionDepsSame (st rt) (st (handle a rt))); [exact Hmodal' |].
    unfold timerCompletion.
    destruct ((timeLeft (st (handle a rt)) <=? 0) && challengeStarted (st (handle a rt))) eqn:G;
      [| exact Hmodal'].
    apply andb_prop in G as [_ G].
    assert (S0 : showStartModal (st (handle a rt)) = false).
    { destruct (showStartModal (st (handle a rt))) eqn:S1; [| reflexivity].
      rewrite (Hgate' S1) in G. discriminate. }
    destruct (isComplete (st (handle a rt))); simpl; intros _; auto.
Qed.

Lemma sound_mount : sound mount.
Proof.
  split; simpl; try lia; try discriminate.
  - split; [unfold countKind; simpl; lia | intros H; now elim H].
  - split; [unfold countKind; simpl; lia | intros H; now elim H].
Qed.

Lemma sound_reachable rt : reachable rt -> sound rt.
Proof.
  induction 1 as [| a rt _ IH | T rt _ IH].
  - exact sound_mount.
  - now apply sound_step.
  - destruct IH. now split.
Qed.

(** *** Runs are reachable *)

Lemma reachable_run fuel feed T rt rt' :
  reachable rt -> run fuel feed T rt = Some rt' -> reachable rt'.
Proof.
  revert rt. induction fuel as [| n IH]; intros rt Hr; simpl.
  - destruct (earliest (timers rt)) as [t |].
    + destruct (due t <=? T); [discriminate |].
      intros [= <-]. now apply reach_wait.
    + intros [= <-]. now apply reach_wait.
  - destruct (earliest (timers rt)) as [t |].
    + destruct (due t <=? T).
      * apply IH. now apply reach_step.
      * intros [= <-]. now apply reach_wait.
    + intros [= <-]. now apply reach_wait.
Qed.

Lemma reachable_started : forall r, started = Some r -> reachable r.
Proof.
  intros r. unfold started, at_.
  destruct (run 10 (fun _ => None) 0 (step ModelsLoaded mount)) as [r' |] eqn:E;
    [| discriminate].
  intros [= <-]. apply reach_step.
  apply (reachable_run _ _ _ _ _ (reach_step _ _ reach_mount) E).
Qed.

Lemma reachable_session feed T :
  reachable (orMount (match started with
                      | Some r => run 5000 feed T r
                      | None => None
                      end)).
Proof.
  destruct started as [r |] eqn:E; [| exact reach_mount].
  destruct (run 5000 feed T r) as [r' |] eqn:E'; [| exact reach_mount].
  simpl. exact (reachable_run _ _ _ _ _ (reachable_started r E) E').
Qed.

(** *** The extras *)

(** X7.  The two intervals never leak: in every reachable state at most
    one detection interval and at most one session interval are pending;
    a detection interval only while the models are loaded and the
    challenge is started, a session interval only while the challenge is
    started with time left.  Once the challenge has stopped, neither is
    pending. *)
Theorem intervals_never_leak (rt : Runtime) :
  reachable rt ->
  (countKind DetectInterval (timers rt) <= 1)%nat /\
  (countKind SessionInterval (timers rt) <= 1)%nat /\
  (countKind DetectInterval (timers rt) <> 0%nat ->
   isLoading (st rt) = false /\ challengeStarted (st rt) = true) /\
  (countKind SessionInterval (timers rt) <> 0%nat ->
   challengeStarted (st rt) = true /\ 0 < timeLeft (st rt)) /\
  (challengeStarted (st rt) = false ->
   countKind DetectInterval (timers rt) = 0%nat /\
   countKind SessionInterval (timers rt) = 0%nat).
Proof.
  intros Hr. destruct (sound_reachable rt Hr) as [[S1 S2] [D1 D2] _ _ _ _ _].
  assert (HD : countKind DetectInterval (timers rt) <> 0%nat ->
               isLoading (st rt) = false /\ challengeStarted (st rt) = true).
  { intros N. specialize (D2 N). unfold detectGuard in D2.
    apply andb_prop in D2 as [A B]. apply negb_true_iff in A. auto. }
  assert (HS : countKind SessionInterval (timers rt) <> 0%nat ->
               challengeStarted (st rt) = true /\ 0 < timeLeft (st rt)).
  { intros N. specialize (S2 N). unfold sessionGuard in S2.
    apply andb_prop in S2 as [A B]. apply negb_true_iff, Z.leb_gt in B. auto. }
  split; [exact D1 |]. split; [exact S1 |]. split; [exact HD |]. split; [exact HS |].
  intros Hstop. split.
  - destruct (Nat.eq_dec (countKind DetectInterval (timers rt)) 0) as [E | N];
      [exact E |]. destruct (HD N) as [_ C]. congruence.
  - destruct (Nat.eq_dec (countKind SessionInterval (timers rt)) 0) as [E | N];
      [exact E |]. destruct (HS N) as [C _]. congruence.
Qed.

Lemma intervals_never_leak_witness :
  (countKind DetectInterval (timers (orMount (heldSession 1199))) <= 1)%nat /\
  (countKind SessionInterval (timers (orMount (heldSession 1199))) <= 1)%nat.
Proof.
  destruct (intervals_never_leak (orMount (heldSession 1199))
              (reachable_session allOkFeed 1199)) as (H1 & H2 & _).
  split; [exact H1 | exact H2].
Defined.

(** X8.  The session timer stays within its budget: in every reachable
    state [timeLeft] is between 0 and 60, and it is positive whenever
    the challenge is started. *)
Theorem session_timer_within_budget (rt : Runtime) :
  reachable rt ->
  0 <= timeLeft (st rt) <= 60 /\
  (challengeStarted (st rt) = true -> 0 < timeLeft (st rt)).
Proof.
  intros Hr. destruct (sound_reachable rt Hr). auto.
Qed.

Lemma session_timer_within_budget_witness :
  0 <= timeLeft (st (orMount (lapsedSession 60450))) <= 60.
Proof.
  exact (proj1 (session_timer_within_budget (orMount (lapsedSession 60450))
                  (reachable_session lapseFeed 60450))).
Defined.

(** X9.  The hold countdown never exceeds [holdDuration] in a reachable
    state, so the seconds shown as "Hold Time" are never negative. *)
Theorem hold_time_shown_nonnegative (rt : Runtime) :
  reachable rt ->
  (forall c, holdCountdown (st rt) = Some c -> c <= holdDuration) /\
  0 <= holdTimeShown (st rt).
Proof.
  intros Hr. destruct (sound_reachable rt Hr) as [_ _ _ _ H _ _].
  split; [exact H |].
  unfold holdTimeShown. destruct (holdCountdown (st rt)) as [c |]; [| lia].
  specialize (H c eq_refl). lia.
Qed.

Lemma hold_time_shown_nonnegative_witness :
  0 <= holdTimeShown (st (orMount retakenSession)).
Proof.
  apply (hold_time_shown_nonnegative (orMount retakenSession)).
  unfold retakenSession, retaken, at_.
  destruct started as [r |] eqn:E; [| exact reach_mount].
  destruct (run 5000 lapseFeed 60450 r) as [r1 |] eqn:E1; [| exact reach_mount].
  destruct (run 100 lapseFeed 61000 (step ClickRetake r1)) as [r2 |] eqn:E2;
    [| exact reach_mount].
  simpl. apply (reachable_run _ _ _ _ _ (reach_step ClickRetake _
                  (reachable_run _ _ _ _ _ (reachable_started r E) E1)) E2).
Defined.

(** X10.  The message "Time's up!" is never shown: in every reachable
    state [getStatusMessage] returns another message, because the
    effect that sees the timer at 0 stops the challenge in the same
    commit and a stopped challenge gets the "Click Start" message. *)
Theorem times_up_message_never_shown (rt : Runtime) :
  reachable rt -> getStatusMessage (st rt) <> TimesUp.
Proof.
  intros Hr. destruct (sound_reachable rt Hr) as [_ _ _ Hrun _ _ _].
  unfold getStatusMessage.
  destruct (challengeStarted (st rt)); simpl; [| discriminate].
  destruct (isComplete (st rt)); [discriminate |].
  specialize (Hrun eq_refl). apply Z.leb_gt in Hrun. rewrite Hrun. cbv zeta.
  destruct (negb (detected (get (handStates (st rt)) (currentSide (st rt)))));
    [discriminate |].
  destruct (negb (shoulderTouching (get (handStates (st rt)) (currentSide (st rt)))));
    [discriminate |].
  destruct (negb (correctAngle (get (handStates (st rt)) (currentSide (st rt)))));
    discriminate.
Qed.

Lemma times_up_message_never_shown_witness :
  getStatusMessage (st (orMount (idleSession 61000))) <> TimesUp.
Proof.
  exact (times_up_message_never_shown (orMount (idleSession 61000))
           (reachable_session idleFeed 61000)).
Defined.

Lemma seconds_shown (c : option Z) :
  (forall v, c = Some v -> v <= holdDuration) ->
  0 <= holdDuration - countdownOr c holdDuration /\
  (holdDuration - countdownOr c holdDuration = 0 <->
   c = None \/ c = Some 0 \/ c = Some holdDuration).
Proof.
  intros H. pose proof (eq_refl : holdDuration = 10) as HD.
  destruct c as [v |].
  - specialize (H v eq_refl). unfold countdownOr.
    destruct (Z.eqb_spec v 0) as [-> | Hv].
    + split; [lia |]. split; auto.
    + split; [lia |]. split.
      * intros E. right. right. f_equal. lia.
      * intros [E | [E | E]]; inversion E; lia.
  - unfold countdownOr. split; [lia |]. split; auto.
Qed.

(** X11.  The "Hold your arm position" message agrees with the test of
    [detect]: in a reachable state it is shown exactly when the
    challenge is started, not complete, and the stored status of the
    current side has all three flags.  Its side is the current side, its
    seconds are never negative, and they are 0 exactly when the
    countdown is null, 0 or [holdDuration]. *)
Theorem hold_message_matches_detect (rt : Runtime) :
  reachable rt ->
  ((exists n, getStatusMessage (st rt) = HoldPosition (currentSide (st rt)) n) <->
   challengeStarted (st rt) = true /\ isComplete (st rt) = false /\
   qualifies (get (handStates (st rt)) (currentSide (st rt))) = true) /\
  (forall sd n, getStatusMessage (st rt) = HoldPosition sd n ->
     sd = currentSide (st rt) /\ 0 <= n /\
     (n = 0 <-> holdCountdown (st rt) = None \/ holdCountdown (st rt) = Some 0 \/
                holdCountdown (st rt) = Some holdDuration)).
Proof.
  intros Hr. destruct (sound_reachable rt Hr) as [_ _ _ Hrun Hhold _ _].
  unfold getStatusMessage, qualifies.
  destruct (challengeStarted (st rt)); cbn [negb].
  2: { split; [split; [intros [n E]; discriminate | intros (E & _); discriminate] |
               intros sd n E; discriminate]. }
  destruct (isComplete (st rt)).
  { split; [split; [intros [n E]; discriminate | intros (_ & E & _); discriminate] |
            intros sd n E; discriminate]. }
  specialize (Hrun eq_refl). apply Z.leb_gt in Hrun. rewrite Hrun. cbv zeta.
  destruct (get (handStates (st rt)) (currentSide (st rt))) as [d ca sh].
  cbn [detected correctAngle shoulderTouching].
  destruct d; cbn [negb andb].
  2: { split; [split; [intros [n E]; discriminate | intros (_ & _ & E); discriminate] |
               intros sd n E; discriminate]. }
  destruct sh; cbn [negb andb].
  2: { split; [split; [intros [n E]; discriminate
                      | intros (_ & _ & E); rewrite andb_false_r in E; discriminate] |
               intros sd n E; discriminate]. }
  destruct ca; cbn [negb andb].
  2: { split; [split; [intros [n E]; discriminate | intros (_ & _ & E); discriminate] |
               intros sd n E; discriminate]. }
  split.
  - split; [auto | intros _; eexists; reflexivity].
  - intros sd n E. injection E as <- <-. split; [reflexivity |].
    now apply seconds_shown.
Qed.

Lemma hold_message_matches_detect_witness :
  (exists n, getStatusMessage (st (orMount (heldSession 1300)))
             = HoldPosition (currentSide (st (orMount (heldSession 1300)))) n) <->
  challengeStarted (st (orMount (heldSession 1300))) = true /\
  isComplete (st (orMount (heldSession 1300))) = false /\
  qualifies (get (handStates (st (orMount (heldSession 1300))))
                 (currentSide (st (orMount (heldSession 1300))))) = true.
Proof.
  exact (proj1 (hold_message_matches_detect (orMount (heldSession 1300))
                  (reachable_session allOkFeed 1300))).
Defined.

Lemma showCompletionModal_handle a rt :
  showCompletionModal (st (handle a rt)) = true ->
  showCompletionModal (st rt) = true.
Proof.
  pose proof (handle_cases a rt) as HC. cbv zeta in HC.
  destruct HC as [E | [(_ & E) | [(_ & _ & E) | [(_ & _ & E) | [(t & hs & _ & _ & _ & E)
    | [(t & i & _ & _ & _ & E) | (t & i & _ & _ & _ & E)]]]]]]; rewrite E; simpl; auto.
  - discriminate.
  - now destruct (detectSet_keeps hs (st rt)) as (_ & _ & _ & -> & _).
Qed.

(** X12.  The completion modal appears only when the session timer has
    run out: whenever an action turns [showCompletionModal] from false
    to true, the state it leaves has [isComplete] set, no time left and
    the challenge stopped.  (Completing both sides early does not bring
    the modal up before the 60 seconds are over.) *)
Theorem completion_modal_only_at_timer_end (a : Action) (rt : Runtime) :
  showCompletionModal (st rt) = false ->
  showCompletionModal (st (step a rt)) = true ->
  isComplete (st (step a rt)) = true /\
  timeLeft (st (step a rt)) <= 0 /\
  challengeStarted (st (step a rt)) = false.
Proof.
  intros H0 H1.
  assert (Hh : showCompletionModal (st (handle a rt)) = false).
  { destruct (showCompletionModal (st (handle a rt))) eqn:E; [| reflexivity].
    apply showCompletionModal_handle in E. congruence. }
  rewrite st_step in *.
  destruct (completionDepsSame (st rt) (st (handle a rt))); [congruence |].
  unfold timerCompletion in *.
  destruct (timeLeft (st (handle a rt)) <=? 0) eqn:T; simpl in *; [| congruence].
  destruct (challengeStarted (st (handle a rt))) eqn:C; [| congruence].
  destruct (isComplete (st (handle a rt))) eqn:I; simpl in *; [| congruence].
  apply Z.leb_le in T. auto.
Qed.

Lemma completion_modal_only_at_timer_end_witness :
  isComplete (st (step (Fire (mkTimer 60000 SessionInterval) None)
                       (orMount (heldSession 59999)))) = true /\
  timeLeft (st (step (Fire (mkTimer 60000 SessionInterval) None)
                     (orMount (heldSession 59999)))) <= 0 /\
  challengeStarted (st (step (Fire (mkTimer 60000 SessionInterval) None)
                             (orMount (heldSession 59999)))) = false.
Proof.
  apply (completion_modal_only_at_timer_end
           (Fire (mkTimer 60000 SessionInterval) None) (orMount (heldSession 59999)));
    vm_compute; reflexivity.
Defined.

(** X13.  A timeout without completion is a dead end.  When the session
    tick takes the timer from 1 to 0 with [isComplete] false, the
    challenge stops and neither modal is up: no Start, Retake or
    Continue button is rendered, while the status message asks to click
    Start.  From such a state no action leads out again. *)
Theorem timeout_without_completion_is_dead_end :
  (forall rt t input,
     reachable rt -> pending t rt = true -> kind t = SessionInterval ->
     timeLeft (st rt) = 1 -> isComplete (st rt) = false ->
     deadEnd (st (step (Fire t input) rt)) /\
     startButtonRendered (st (step (Fire t input) rt)) = false /\
     completionButtonsRendered (st (step (Fire t input) rt)) = false /\
     getStatusMessage (st (step (Fire t input) rt)) = ClickStartToBegin) /\
  (forall a rt, deadEnd (st rt) -> deadEnd (st (step a rt))).
Proof.
  split.
  - intros rt t input Hr P K T1 I.
    destruct (sound_reachable rt Hr) as [[_ S2] _ _ _ _ Hgate Hmodal].
    pose proof (pending_counts t rt P) as N. rewrite K in N.
    specialize (S2 N). unfold sessionGuard in S2.
    apply andb_prop in S2 as [C _].
    assert (SM : showStartModal (st rt) = false).
    { destruct (showStartModal (st rt)); [| reflexivity].
      rewrite (Hgate eq_refl) in C. discriminate. }
    assert (CM : showCompletionModal (st rt) = false).
    { destruct (showCompletionModal (st rt)); [| reflexivity].
      destruct (Hmodal eq_refl) as [E' _]. congruence. }
    assert (Hh : st (handle (Fire t input) rt) = decrementTime (st rt)).
    { simpl. rewrite P. unfold callback. cbv zeta. now rewrite K. }
    assert (D : completionDepsSame (st rt) (decrementTime (st rt)) = false).
    { unfold completionDepsSame, decrementTime. simpl. rewrite T1. reflexivity. }
    assert (E : st (step (Fire t input) rt)
                = setChallengeStarted false (decrementTime (st rt))).
    { rewrite st_step, Hh, D. unfold timerCompletion, decrementTime. simpl.
      now rewrite T1, C, I. }
    rewrite E. unfold deadEnd, startButtonRendered, completionButtonsRendered,
      getStatusMessage. simpl. rewrite SM, CM. auto.
  - intros a rt (C & SM & CM).
    pose proof (handle_cases a rt) as HC. cbv zeta in HC.
    assert (Hh : deadEnd (st (handle a rt))).
    { unfold startButtonRendered, completionButtonsRendered in HC.
      destruct HC as [E | [(_ & E) | [(_ & B & E) | [(_ & B & E) | [(t & hs & _ & _ & _ & E)
        | [(t & i & _ & _ & _ & E) | (t & i & _ & _ & _ & E)]]]]]]; rewrite E;
        unfold deadEnd; simpl; auto.
      - rewrite SM in B. discriminate.
      - congruence.
      - destruct (detectSet_keeps hs (st rt)) as (_ & -> & -> & -> & _). auto. }
    rewrite st_step.
    destruct (completionDepsSame (st rt) (st (handle a rt))); [exact Hh |].
    destruct Hh as (C' & SM' & CM'). unfold timerCompletion.
    rewrite C', andb_false_r. unfold deadEnd. auto.
Qed.

Lemma timeout_without_completion_is_dead_end_witness :
  deadEnd (st (step (Fire (mkTimer 60000 SessionInterval) None)
                    (orMount (idleSession 59999)))).
Proof.
  apply (proj1 timeout_without_completion_is_dead_end
               (orMount (idleSession 59999)) (mkTimer 60000 SessionInterval) None).
  - exact (reachable_session idleFeed 59999).
  - vm_compute. reflexivity.
  - reflexivity.
  - vm_compute. reflexivity.
  - vm_compute. reflexivity.
Defined.

Lemma isComplete_detectSet hs s :
  (isComplete s = true -> isComplete (detectSet hs s) = true) /\
  (isComplete s = false -> isComplete (detectSet hs s) = true ->
   currentSide s = left /\ qualifies (get hs left) = true /\
   exists c, holdCountdown s = Some c /\ c <= 0).
Proof.
  unfold detectSet. cbv zeta.
  destruct (qualifies (get hs (currentSide s))) eqn:Q; [| split; simpl; congruence].
  destruct (holdCountdown s) as [c |]; [| split; simpl; congruence].
  destruct (0 <? c) eqn:P; [split; simpl; congruence |].
  destruct (currentSide s); simpl; [| split; congruence].
  split; [reflexivity |]. intros _ _.
  split; [reflexivity |]. split; [exact Q |].
  exists c. split; [reflexivity |]. now apply Z.ltb_ge.
Qed.

(** X14.  [isComplete] is set only by a detection tick on the left side
    whose frame qualifies and which sees a countdown at or below 0, and
    once set it is kept by every action except Start and Retake. *)
Theorem completion_set_by_left_tick_and_kept (a : Action) (rt : Runtime) :
  (isComplete (st rt) = false -> isComplete (st (step a rt)) = true ->
   exists t hs c,
     a = Fire t (Some hs) /\ pending t rt = true /\ kind t = DetectInterval /\
     currentSide (st rt) = left /\ qualifies (get hs left) = true /\
     holdCountdown (st rt) = Some c /\ c <= 0) /\
  (isComplete (st rt) = true -> a <> ClickStart -> a <> ClickRetake ->
   isComplete (st (step a rt)) = true).
Proof.
  pose proof (sameHold_commit (st rt) (handle a rt)) as SH.
  fold (step a rt) in SH. rewrite (same_isComplete _ _ SH).
  pose proof (handle_cases a rt) as HC. cbv zeta in HC.
  split.
  - intros I0 I1.
    destruct HC as [E | [(_ & E) | [(_ & _ & E) | [(_ & _ & E) | [(t & hs & A & P & K & E)
      | [(t & i & _ & _ & _ & E) | (t & i & _ & _ & _ & E)]]]]]]; rewrite E in I1;
      simpl in I1; try congruence.
    destruct (proj2 (isComplete_detectSet hs (st rt)) I0 I1) as (S & Q & c & Hc & Hle).
    exists t, hs, c. auto 10.
  - intros I0 N1 N2.
    destruct HC as [E | [(_ & E) | [(A & _) | [(A & _) | [(t & hs & A & P & K & E)
      | [(t & i & _ & _ & _ & E) | (t & i & _ & _ & _ & E)]]]]]]; try congruence;
      rewrite E; simpl; try exact I0.
    now apply isComplete_detectSet.
Qed.

Lemma completion_set_by_left_tick_and_kept_witness :
  isComplete (st (step (Fire (mkTimer 4500 DetectInterval) (Some initialHandStates))
                       (orMount (heldSession 4400)))) = true.
Proof.
  apply (proj2 (completion_set_by_left_tick_and_kept
                  (Fire (mkTimer 4500 DetectInterval) (Some initialHandStates))
                  (orMount (heldSession 4400)))).
  - vm_compute. reflexivity.
  - discriminate.
  - discriminate.
Defined.

(** X15.  The session timer runs on its own: an action leaves
    [timeLeft] as it is, unless it is the session tick, which takes 1
    off, or Start or Retake, which set it to 60.  No detection tick and
    no hold decrement touches it. *)
Theorem session_timer_changes (a : Action) (rt : Runtime) :
  timeLeft (st (step a rt)) = timeLeft (st rt) \/
  (exists t input, a = Fire t input /\ pending t rt = true /\
                   kind t = SessionInterval /\
                   timeLeft (st (step a rt)) = timeLeft (st rt) - 1) \/
  ((a = ClickStart \/ a = ClickRetake) /\ timeLeft (st (step a rt)) = 60).
Proof.
  pose proof (sameHold_commit (st rt) (handle a rt)) as SH.
  fold (step a rt) in SH. rewrite (same_timeLeft _ _ SH).
  pose proof (handle_cases a rt) as HC. cbv zeta in HC.
  destruct HC as [E | [(_ & E) | [(A & _ & E) | [(A & _ & E) | [(t & hs & A & P & K & E)
    | [(t & i & _ & _ & _ & E) | (t & i & A & P & K & E)]]]]]]; rewrite E; simpl; auto.
  - left. now destruct (detectSet_keeps hs (st rt)) as (-> & _).
  - right. left. exists t, i. auto.
Qed.

Lemma pendingDecrements_countKind rt :
  pendingDecrements rt = countKind HoldTimeout (timers rt).
Proof. reflexivity. Qed.

(** X16.  Hold timeouts are never cancelled and fire unconditionally.
    No action other than the firing of a pending hold timeout lowers the
    number of pending hold timeouts; and when one fires it takes 1 off
    the countdown whatever the state (null counts as 0), without looking
    at the side, the frame or whether the challenge is started. *)
Theorem hold_timeouts_never_cancelled :
  (forall a rt,
     (forall t input, a = Fire t input -> kind t <> HoldTimeout) ->
     (pendingDecrements rt <= pendingDecrements (step a rt))%nat) /\
  (forall t input rt,
     pending t rt = true -> kind t = HoldTimeout ->
     pendingDecrements rt = S (pendingDecrements (step (Fire t input) rt)) /\
     holdCountdown (st (step (Fire t input) rt)) =
     Some (match holdCountdown (st rt) with None => 0 | Some c => c end - 1)).
Proof.
  split.
  - intros a rt Ha. unfold step. rewrite pendingDecrements_commit.
    rewrite !pendingDecrements_countKind.
    destruct a as [| | | | t input]; simpl.
    + lia.
    + destruct (showStartModal (st rt) && negb (isLoading (st rt))); simpl; lia.
    + destruct (showCompletionModal (st rt)); simpl; lia.
    + destruct (showCompletionModal (st rt)); simpl; lia.
    + specialize (Ha t input eq_refl).
      destruct (pending t rt) eqn:P; [| lia].
      unfold callback. cbv zeta.
      destruct (kind t) eqn:K; [| | congruence].
      * assert (C : countKind HoldTimeout
                      (removeTimer t (timers rt)
                       ++ [mkTimer (Z.max (now rt) (due t) + 100) DetectInterval])
                    = countKind HoldTimeout (timers rt)).
        { rewrite countKind_app, countKind_removeTimer_other by congruence.
          unfold countKind at 2. simpl. lia. }
        destruct input as [hs |]; simpl; [| rewrite C; lia].
        destruct (detectArms hs (st rt)); simpl; [| rewrite C; lia].
        rewrite countKind_app, C. lia.
      * simpl. rewrite countKind_app, countKind_removeTimer_other by congruence. lia.
  - intros t input rt P K. unfold step.
    rewrite pendingDecrements_commit, (same_holdCountdown _ _ (sameHold_commit _ _)).
    rewrite !pendingDecrements_countKind.
    simpl. rewrite P. unfold callback. cbv zeta. rewrite K. simpl.
    split; [| reflexivity].
    rewrite <- K. now apply countKind_removeTimer_same.
Qed.

Lemma hold_timeouts_never_cancelled_witness :
  pendingDecrements (orMount retaken)
  = S (pendingDecrements (step (Fire (mkTimer 60500 HoldTimeout) None) (orMount retaken))) /\
  holdCountdown (st (step (Fire (mkTimer 60500 HoldTimeout) None) (orMount retaken)))
  = Some (-1).
Proof.
  apply (proj2 hold_timeouts_never_cancelled (mkTimer 60500 HoldTimeout) None
               (orMount retaken)).
  - vm_compute. reflexivity.
  - reflexivity.
Defined.

(** X17.  Without a pose nothing qualifies: for a frame with hands but
    no pose prediction the tick clears the hold countdown and schedules
    no decrement, whatever the state was. *)
Theorem no_pose_resets_hold (f : Frame) :
  wf_frame f ->
  posePredictions f = [] ->
  exists hs, newHandStates f = Some hs /\
    forall s : State,
      holdCountdown (detectSet hs s) = None /\ detectArms hs s = false.
Proof.
  intros Hwf Hp.
  pose proof (newHandStates_wf f Hwf) as E. rewrite Hp in E. simpl in E.
  eexists. split; [exact E |].
  intros s.
  assert (Q : qualifies (get {|
                hs_left := statusFor (shoulderLineY f) left None
                             (lastOfSide left (handPredictions f));
                hs_right := statusFor (shoulderLineY f) right None
                              (lastOfSide right (handPredictions f)) |}
                (currentSide s)) = false).
  { unfold qualifies.
    destruct (currentSide s); simpl;
      match goal with
      | |- context [statusFor ?l ?sd None ?h] =>
          destruct (statusFor_no_shoulder l sd h) as [-> _]
      end; now rewrite andb_false_r. }
  unfold detectSet, detectArms. cbv zeta. now rewrite Q.
Qed.

Lemma no_pose_resets_hold_witness :
  exists hs, newHandStates noPoseFrame = Some hs /\
    forall s : State,
      holdCountdown (detectSet hs s) = None /\ detectArms hs s = false.
Proof.
  apply (no_pose_resets_hold noPoseFrame).
  - split; repeat constructor; simpl; lia.
  - reflexivity.
Defined.

Lemma In_renderPass_hold x prev rt :
  kind x = HoldTimeout -> In x (timers rt) -> In x (timers (renderPass prev rt)).
Proof.
  intros K H. rewrite timers_renderPass.
  assert (Hc : forall k r, k <> HoldTimeout -> In x (timers r) -> In x (timers (clear k r))).
  { intros k r Hk Hin. unfold clear. simpl. apply filter_In. split; [exact Hin |].
    rewrite K. destruct k; simpl; congruence. }
  assert (Ha : forall k d r, In x (timers r) -> In x (timers (arm k d r))).
  { intros k d r Hin. unfold arm. simpl. apply in_app_iff. now left. }
  assert (T : In x (timers (timerEffect prev rt))).
  { unfold timerEffect. cbv zeta.
    destruct (timerDepsSame prev (st rt)); [exact H |].
    destruct (negb (challengeStarted (st rt)) || (timeLeft (st rt) <=? 0));
      [| apply Ha]; apply Hc; (discriminate || exact H). }
  unfold detectionEffect. cbv zeta.
  destruct (detectionDepsSame prev (st (timerEffect prev rt))); [exact T |].
  destruct (isLoading (st (timerEffect prev rt))
            || negb (challengeStarted (st (timerEffect prev rt))));
    [| apply Ha]; apply Hc; (discriminate || exact T).
Qed.

(** X18.  Each qualifying tick arms its own decrement: a detection tick
    whose frame qualifies and which sees a positive countdown leaves the
    countdown as it is and adds one hold timeout, due 1000 ms after the
    tick, to those already pending. *)
Theorem qualifying_tick_arms_timeout_due_in_one_second
    (rt : Runtime) (t : Timer) (hs : HandStates) (r : Z) :
  pending t rt = true -> kind t = DetectInterval ->
  qualifies (get hs (currentSide (st rt))) = true ->
  holdCountdown (st rt) = Some r -> 0 < r ->
  pendingDecrements (step (Fire t (Some hs)) rt) = S (pendingDecrements rt) /\
  holdCountdown (st (step (Fire t (Some hs)) rt)) = Some r /\
  In (mkTimer (Z.max (now rt) (due t) + 1000) HoldTimeout)
     (timers (step (Fire t (Some hs)) rt)).
Proof.
  intros P K Q Hc Hr.
  destruct (qualifying_tick_arms_another_timeout rt t hs r P K Q Hc Hr) as [H1 H2].
  split; [exact H1 |]. split; [exact H2 |].
  unfold step, commit.
  apply In_renderPass_hold; [reflexivity |].
  apply In_renderPass_hold; [reflexivity |].
  simpl. rewrite P. unfold callback. cbv zeta. rewrite K.
  assert (A : detectArms hs (st rt) = true).
  { unfold detectArms. rewrite Q, Hc. now apply Z.ltb_lt. }
  simpl. rewrite A. simpl. apply in_app_iff. right. now left.
Qed.

Lemma qualifying_tick_arms_timeout_due_in_one_second_witness :
  pendingDecrements (step (Fire (mkTimer 1200 DetectInterval) (Some bothOk))
                          (orMount (heldSession 1199)))
  = S (pendingDecrements (orMount (heldSession 1199))).
Proof.
  refine (proj1 (qualifying_tick_arms_timeout_due_in_one_second
                   (orMount (heldSession 1199)) (mkTimer 1200 DetectInterval) bothOk 10
                   _ _ _ _ _)).
  - vm_compute. reflexivity.
  - reflexivity.
  - vm_compute. reflexivity.
  - vm_compute. reflexivity.
  - reflexivity.
Defined.

(** *** Start while running, and a hold across a disqualifying frame *)

(** C4.  Start while the challenge is running is a no-op: in every
    reachable state with the challenge started the Start button is not
    rendered, and the Start action leaves the session timer, the hold
    countdown, the current side and all the rest of the component as
    they are. *)
Theorem start_while_running_is_noop (rt : Runtime) :
  reachable rt ->
  challengeStarted (st rt) = true ->
  startButtonRendered (st rt) = false /\
  timeLeft (st (step ClickStart rt)) = timeLeft (st rt) /\
  holdCountdown (st (step ClickStart rt)) = holdCountdown (st rt) /\
  currentSide (st (step ClickStart rt)) = currentSide (st rt) /\
  step ClickStart rt = rt.
Proof.
  intros Hr Hc.
  assert (B : startButtonRendered (st rt) = false).
  { unfold startButtonRendered.
    destruct (showStartModal (st rt)) eqn:E; [| reflexivity].
    rewrite (modalGate_reachable rt Hr E) in Hc. discriminate. }
  assert (E : step ClickStart rt = rt).
  { unfold step. simpl. unfold startButtonRendered in B. rewrite B.
    unfold commit. now rewrite !renderPass_same. }
  rewrite E. auto.
Qed.

Lemma start_while_running_is_noop_witness :
  timeLeft (st (step ClickStart (orMount (heldSession 3450))))
  = timeLeft (st (orMount (heldSession 3450))) /\
  holdCountdown (st (step ClickStart (orMount (heldSession 3450))))
  = holdCountdown (st (orMount (heldSession 3450))) /\
  currentSide (st (step ClickStart (orMount (heldSession 3450))))
  = currentSide (st (orMount (heldSession 3450))).
Proof.
  destruct (start_while_running_is_noop (orMount (heldSession 3450))
              (reachable_session allOkFeed 3450))
    as (_ & H1 & H2 & H3 & _).
  - vm_compute. reflexivity.
  - split; [exact H1 | split; [exact H2 | exact H3]].
Defined.

(** The state the witness is taken at: running, on the left side, with 9
    on the hold countdown and 57 s on the session timer. *)
Lemma heldSession_mid_hold :
  observe (fun r => (challengeStarted (st r), timeLeft (st r),
                     holdCountdown (st r), currentSide (st r)))
          (heldSession 3450)
  = Some (true, 57, Some 9, left).
Proof. vm_compute. reflexivity. Qed.

(** C6 at the failing inputs.  The tick at 0.5 s sees a disqualifying
    frame and sets the countdown to null, but the three decrements
    scheduled at 0.2, 0.3 and 0.4 s stay pending.  [blipFeed]: the hold
    restarted at 0.6 s with 10 is down to 7 at 1.4 s.  [dipFeed]: with
    the arm down until 1.45 s the decrements take the null countdown to
    -3, and the first qualifying tick, at 1.5 s, finds the hold finished
    and switches to the left side. *)
Theorem stale_decrements_survive_disqualifying_frame :
  observe (fun r => (holdCountdown (st r), pendingDecrements r)) (blippedSession 499)
    = Some (Some 10, 3%nat) /\
  observe (fun r => (holdCountdown (st r), pendingDecrements r)) (blippedSession 500)
    = Some (None, 3%nat) /\
  observe (fun r => holdCountdown (st r)) (blippedSession 600) = Some (Some 10) /\
  observe (fun r => (holdCountdown (st r), rev (decrements r))) (blippedSession 1400)
    = Some (Some 7, [1200; 1300; 1400]) /\
  observe (fun r => (holdCountdown (st r), pendingDecrements r)) (dippedSession 500)
    = Some (None, 3%nat) /\
  observe (fun r => (holdCountdown (st r), currentSide (st r), rev (decrements r)))
          (dippedSession 1450)
    = Some (Some (-3), right, [1200; 1300; 1400]) /\
  observe (fun r => (holdCountdown (st r), currentSide (st r))) (dippedSession 1500)
    = Some (None, left).
Proof. repeat split; vm_compute; reflexivity. Qed.

End SessionMore.
